(** * CHATVITASYS: the access-control core of [app.py]

    A shallow embedding of the helpers and handlers of [src/app.py]
    (room credentials, one-time codes, the retention sweep, uploads and
    the chat transcript) and the properties the specification states
    about them.

    Conventions of the embedding.
    - Python [str] values are Rocq [string]s: sequences of code points
      below 256.  [str.encode()] is UTF-8 on that range.
    - [time.time()] readings are rationals (seconds); the differences the
      code takes are far below the precision of a double, so no rounding
      is modelled.  [datetime] instants and file modification times are
      integers (microseconds), the resolution of [datetime]/[timedelta].
    - The two JSON tables are files that may not exist yet
      ([option (gmap ..)]); [json.dump]/[json.load] round-trip the
      dictionaries and are not modelled further.
    - The file system is that of Linux.  The model follows the
      directories directly under [secure_rooms] and the regular files in
      them, whose contents are bytes.  A directory comes into being
      through [makedirs] only, which answers [Beyond] for every name
      that is not a single path component of its own ([a/b], [.], [..],
      a name where a table is not yet): what the operating system does
      there (nested or shared directories) is not described.  The
      properties about what the application does over time are stated
      for the names the model follows, [room_ok] and [modelled], for
      which no call answers [Beyond].
    - What the chat form writes is the UTF-8 encoding of the line.  The
      text-mode read that fills the chat log of the page (decoding,
      universal newlines) is not modelled: the properties of the
      transcript are about the bytes stored in [chat.txt].
    - The field [io_log] records the mutating calls made, so that
      "nothing was written" can be told from "the same was written".
    - [random.randint] and the clocks are inputs of the functions that
      read them. *)

From Stdlib Require Import ZArith QArith Lqa Ascii String.
From stdpp Require Import gmap strings list fin_maps pretty.

Local Open Scope Z_scope.

(** ** [hashlib.sha256]: FIPS 180-4 over 32-bit words held in [Z] *)

Module Sha256.

Definition wmod : Z := 2 ^ 32.

Definition add32 (x y : Z) : Z := (x + y) mod wmod.

Definition rotr (n x : Z) : Z :=
  Z.lor (Z.shiftr x n) (Z.shiftl x (32 - n) mod wmod).

Definition not32 (x : Z) : Z := wmod - 1 - x.

Definition Ch (x y z : Z) : Z :=
  Z.lxor (Z.land x y) (Z.land (not32 x) z).

Definition Maj (x y z : Z) : Z :=
  Z.lxor (Z.lxor (Z.land x y) (Z.land x z)) (Z.land y z).

Definition Sigma0 (x : Z) : Z :=
  Z.lxor (Z.lxor (rotr 2 x) (rotr 13 x)) (rotr 22 x).

Definition Sigma1 (x : Z) : Z :=
  Z.lxor (Z.lxor (rotr 6 x) (rotr 11 x)) (rotr 25 x).

Definition sigma0 (x : Z) : Z :=
  Z.lxor (Z.lxor (rotr 7 x) (rotr 18 x)) (Z.shiftr x 3).

Definition sigma1 (x : Z) : Z :=
  Z.lxor (Z.lxor (rotr 17 x) (rotr 19 x)) (Z.shiftr x 10).

(** The largest [r] below [2 ^ bits] with [power r <= n], bit by bit. *)
Fixpoint root_bits (power : Z -> Z) (n : Z) (bits : nat) (r : Z) : Z :=
  match bits with
  | O => r
  | S b =>
      let c := r + 2 ^ Z.of_nat b in
      root_bits power n b (if power c <=? n then c else r)
  end.

(** The first 32 bits of the fractional part of a square or cube root. *)
Definition frac_sqrt (p : Z) : Z :=
  root_bits (fun c => c * c) (p * 2 ^ 64) 40 0 mod wmod.

Definition frac_cbrt (p : Z) : Z :=
  root_bits (fun c => c * c * c) (p * 2 ^ 96) 40 0 mod wmod.

Definition is_prime (p : Z) : bool :=
  forallb (fun d => negb (p mod d =? 0)) (seqZ 2 (p - 2)).

(** The first sixty-four primes, 2 to 311. *)
Definition primes : list Z := filter (fun p => is_prime p = true) (seqZ 2 310).

(** The round constants: the cube roots of the first sixty-four primes. *)
Definition K : list Z := Eval vm_compute in map frac_cbrt primes.

(** The eight working variables, [a] to [h]. *)
Record state := State {
  sa : Z; sb : Z; sc : Z; sd : Z; se : Z; sf : Z; sg : Z; sh : Z }.

(** The initial hash value: the square roots of the first eight primes. *)
Definition H0 : state :=
  Eval vm_compute in
    State (frac_sqrt 2) (frac_sqrt 3) (frac_sqrt 5) (frac_sqrt 7)
          (frac_sqrt 11) (frac_sqrt 13) (frac_sqrt 17) (frac_sqrt 19).

(** Padding: the byte 0x80, zero bytes up to 56 mod 64, then the bit
    length as a 64-bit big-endian integer. *)
Fixpoint be_bytes (n : nat) (x : Z) : list Z :=
  match n with
  | O => []
  | S n' => be_bytes n' (x / 256) ++ [x mod 256]
  end.

Definition pad (msg : list Z) : list Z :=
  let len := Z.of_nat (length msg) in
  let zeros := Z.to_nat ((55 - len) mod 64) in
  msg ++ [0x80] ++ replicate zeros 0 ++ be_bytes 8 (8 * len).

Fixpoint be_words (bytes : list Z) : list Z :=
  match bytes with
  | b0 :: b1 :: b2 :: b3 :: rest =>
      (((b0 * 256 + b1) * 256 + b2) * 256 + b3) :: be_words rest
  | _ => []
  end.

Fixpoint blocks (n : nat) (words : list Z) : list (list Z) :=
  match n with
  | O => []
  | S n' => take 16 words :: blocks n' (drop 16 words)
  end.

(** The message schedule, newest word first: [W t] sits at the head
    when [W (t-2)], [W (t-7)], [W (t-15)], [W (t-16)] are read. *)
Fixpoint schedule (n : nat) (rev_w : list Z) : list Z :=
  match n with
  | O => rev_w
  | S n' =>
      let w := add32 (add32 (add32 (sigma1 (nth 1 rev_w 0)) (nth 6 rev_w 0))
                            (sigma0 (nth 14 rev_w 0)))
                     (nth 15 rev_w 0) in
      schedule n' (w :: rev_w)
  end.

Definition round (s : state) (kw : Z * Z) : state :=
  let t1 := add32 (add32 (add32 (add32 (sh s) (Sigma1 (se s)))
                                (Ch (se s) (sf s) (sg s)))
                         (fst kw)) (snd kw) in
  let t2 := add32 (Sigma0 (sa s)) (Maj (sa s) (sb s) (sc s)) in
  State (add32 t1 t2) (sa s) (sb s) (sc s)
        (add32 (sd s) t1) (se s) (sf s) (sg s).

Definition compress (h : state) (block : list Z) : state :=
  let w := reverse (schedule 48 (reverse block)) in
  let s := fold_left round (zip K w) h in
  State (add32 (sa h) (sa s)) (add32 (sb h) (sb s))
        (add32 (sc h) (sc s)) (add32 (sd h) (sd s))
        (add32 (se h) (se s)) (add32 (sf h) (sf s))
        (add32 (sg h) (sg s)) (add32 (sh h) (sh s)).

Definition digest (msg : list Z) : state :=
  let padded := pad msg in
  fold_left compress (blocks (length padded / 64) (be_words padded)) H0.

(** The 32 digest bytes read as one big-endian integer. *)
Definition digest_int (msg : list Z) : Z :=
  let s := digest msg in
  fold_left (fun acc w => acc * wmod + w)
    [sa s; sb s; sc s; sd s; se s; sf s; sg s; sh s] 0.

Definition hex_digit (d : Z) : ascii :=
  ascii_of_N (Z.to_N (if d <? 10 then 48 + d else 87 + d)).

Fixpoint hex (n : nat) (x : Z) (acc : string) : string :=
  match n with
  | O => acc
  | S n' => hex n' (x / 16) (String (hex_digit (x mod 16)) acc)
  end.

Definition hexdigest (msg : list Z) : string := hex 64 (digest_int msg) "".

End Sha256.

(** [str.encode()]: UTF-8 of code points below 256. *)
Definition utf8 (c : ascii) : list Z :=
  let n := Z.of_N (N_of_ascii c) in
  if n <? 128 then [n] else [Z.lor 0xC0 (Z.shiftr n 6); Z.lor 0x80 (Z.land n 0x3F)].

Fixpoint encode (s : string) : list Z :=
  match s with
  | EmptyString => []
  | String c s' => utf8 c ++ encode s'
  end.

(** ** Helpers of [app.py] *)

Definition hash_pw (password : string) : string :=
  Sha256.hexdigest (encode password).

Definition check_password (password hashed : string) : bool :=
  bool_decide (hash_pw password = hashed).

(** ** Persisted state and the effects of the handlers *)

Definition ROOMS_FILE : string := "secure_rooms/_room_passwords.json".
Definition OTP_FILE : string := "secure_rooms/_otp_cache.json".
Definition AUTO_DELETE_HOURS : Z := 12.

(** An entry of the OTP table: [{"otp": .., "timestamp": ..}]. *)
Record otp_entry := OtpEntry { otp : string; timestamp : Q }.

(** A regular file of a room directory: what [os.path.getmtime]
    returns and the bytes the file holds, one character per byte. *)
Record file := File { mtime : Z; content : string }.

(** Every mutating call the handlers make against the file system, by
    the path it changes. *)
Inductive event :=
  | Wrote (path : string)
  | MadeDir (path : string)
  | Removed (path : string).

Record world := World {
  rooms_file : option (gmap string string);
  otp_file : option (gmap string otp_entry);
  dirs : gmap string (gmap string file);
  io_log : list event   (* newest first *)
}.

(** What the page shows before [st.stop()]. *)
Inductive notice :=
  | AllFieldsRequired
  | InvalidOrExpiredOtp
  | IncorrectRoomPassword.

Inductive exn :=
  | FileNotFoundError (path : string)
  | FileExistsError (path : string)
  | NotADirectoryError (path : string)
  | ValueError (path : string)           (* embedded null byte *)
  | FileNameTooLong (path : string).     (* OSError, errno 36 *)

(** [Beyond]: the call leaves the part of the file system the model
    follows. *)
Inductive outcome (A : Type) :=
  | Done (a : A)
  | Stopped (n : notice)
  | Raised (e : exn)
  | Beyond.
Arguments Done {A} a.
Arguments Stopped {A} n.
Arguments Raised {A} e.
Arguments Beyond {A}.

(** Handlers thread the persisted state and may stop or raise. *)
Definition M (A : Type) : Type := world → outcome A * world.

Global Instance M_ret : MRet M := λ A a w, (Done a, w).

Global Instance M_bind : MBind M := λ A B f m w,
  match m w with
  | (Done a, w') => f a w'
  | (Stopped n, w') => (Stopped n, w')
  | (Raised e, w') => (Raised e, w')
  | (Beyond, w') => (Beyond, w')
  end.

Definition stop {A} (n : notice) : M A := λ w, (Stopped n, w).

Definition log (e : event) (w : world) : list event := e :: io_log w.

(** *** The two tables *)

Definition load_room_passwords : M (gmap string string) := λ w,
  match rooms_file w with
  | None => (Done ∅, w)
  | Some data => (Done data, w)
  end.

Definition save_room_passwords (data : gmap string string) : M unit := λ w,
  (Done (), World (Some data) (otp_file w) (dirs w) (log (Wrote ROOMS_FILE) w)).

Definition load_otps : M (gmap string otp_entry) := λ w,
  match otp_file w with
  | None => (Done ∅, w)
  | Some data => (Done data, w)
  end.

Definition save_otps (data : gmap string otp_entry) : M unit := λ w,
  (Done (), World (rooms_file w) (Some data) (dirs w) (log (Wrote OTP_FILE) w)).

(** *** The file system calls the handlers use *)

(** [os.path.join(dir, name)] for a base name. *)
Definition join (dir name : string) : string := dir +:+ "/" +:+ name.

Definition NUL : ascii := "000"%char.

(** The longest name of a directory entry, in bytes. *)
Definition NAME_MAX : Z := 255.

Fixpoint has_char (c : ascii) (s : string) : bool :=
  match s with
  | String x s' => bool_decide (x = c) || has_char c s'
  | EmptyString => false
  end.

(** A single path component that names an entry of its own: not empty,
    no separator, neither [.] nor [..]. *)
Definition entry_name (name : string) : bool :=
  negb (bool_decide (name = "")) && negb (has_char "/" name)
  && negb (bool_decide (name = ".")) && negb (bool_decide (name = "..")).

(** What is left of [s] after [prefix], when [s] starts with it. *)
Fixpoint after (prefix s : string) : option string :=
  match prefix, s with
  | EmptyString, _ => Some s
  | String a prefix', String b s' =>
      if bool_decide (a = b) then after prefix' s' else None
  | String _ _, EmptyString => None
  end.

(** Whether a table is stored under this name in [secure_rooms]. *)
Definition table_named (name : string) (w : world) : bool :=
  bool_decide (name = "_room_passwords.json") && bool_decide (is_Some (rooms_file w))
  || bool_decide (name = "_otp_cache.json") && bool_decide (is_Some (otp_file w)).

Definition table_name (name : string) : bool :=
  bool_decide (name = "_room_passwords.json")
  || bool_decide (name = "_otp_cache.json").

(** A path that is not a directory of the model: a null byte or a name
    of more than [NAME_MAX] bytes is refused, a table stored under that
    name is in the way, a plain name is simply missing, and of any
    other path the model does not tell. *)
Definition no_such_dir {A} (path at_path : string) : M A := λ w,
  match after "secure_rooms/" path with
  | Some name =>
      if negb (entry_name name) then (Beyond, w)
      else if has_char NUL name then (Raised (ValueError at_path), w)
      else if NAME_MAX <? Z.of_nat (length (encode name))
      then (Raised (FileNameTooLong at_path), w)
      else if table_named name w then (Raised (NotADirectoryError at_path), w)
      else if table_name name then (Beyond, w)
      else (Raised (FileNotFoundError at_path), w)
  | None => (Beyond, w)
  end.

(** [os.makedirs(path, exist_ok=True)] for a path directly under
    [secure_rooms]: nothing to do for a directory that exists; a table
    stored under the name, a null byte and a name of more than
    [NAME_MAX] bytes make [os.mkdir] raise; a new directory otherwise. *)
Definition makedirs (path : string) : M unit := λ w,
  match dirs w !! path with
  | Some _ => (Done (), w)
  | None =>
      match after "secure_rooms/" path with
      | Some name =>
          if negb (entry_name name) then (Beyond, w)
          else if has_char NUL name then (Raised (ValueError path), w)
          else if NAME_MAX <? Z.of_nat (length (encode name))
          then (Raised (FileNameTooLong path), w)
          else if table_named name w then (Raised (FileExistsError path), w)
          else if table_name name then (Beyond, w)
          else
            (Done (), World (rooms_file w) (otp_file w) (<[path := ∅]> (dirs w))
                            (log (MadeDir path) w))
      | None => (Beyond, w)
      end
  end.

(** [os.listdir(path)], in the order the map enumerates its keys. *)
Definition listdir (path : string) : M (list string) := λ w,
  match dirs w !! path with
  | Some d => (Done (map_to_list d).*1, w)
  | None => no_such_dir path path w
  end.

Definition lookup_file (dir name : string) (w : world) : option file :=
  d ← dirs w !! dir; d !! name.

(** [os.path.exists(os.path.join(dir, name))] *)
Definition exists_file (dir name : string) : M bool := λ w,
  (Done (bool_decide (is_Some (lookup_file dir name w))), w).

(** [os.path.getmtime(os.path.join(dir, name))] *)
Definition getmtime (dir name : string) : M Z := λ w,
  match lookup_file dir name w with
  | Some f => (Done (mtime f), w)
  | None => (Raised (FileNotFoundError (join dir name)), w)
  end.

(** [os.remove(os.path.join(dir, name))] of an entry of a directory of
    the model.  The entries are regular files: a directory inside a room
    directory is made by a room name with a separator only, for which
    [makedirs] answers [Beyond]. *)
Definition remove (dir name : string) : M unit := λ w,
  match dirs w !! dir with
  | Some d =>
      match d !! name with
      | Some _ =>
          (Done (), World (rooms_file w) (otp_file w)
                          (<[dir := delete name d]> (dirs w))
                          (log (Removed (join dir name)) w))
      | None => (Raised (FileNotFoundError (join dir name)), w)
      end
  | None => no_such_dir dir (join dir name) w
  end.

(** [open(path, "w")] / [open(path, "wb")] followed by one [write]:
    the file is created or truncated; [stamp] is the modification time
    the file system records. *)
Definition write_file (stamp : Z) (dir name data : string) : M unit := λ w,
  match dirs w !! dir with
  | Some d =>
      (Done (), World (rooms_file w) (otp_file w)
                      (<[dir := <[name := File stamp data]> d]> (dirs w))
                      (log (Wrote (join dir name)) w))
  | None => no_such_dir dir (join dir name) w
  end.

(** [open(path, "a")] followed by one [write] of bytes: the file is
    created when missing and the data lands after what it holds. *)
Definition append_file (stamp : Z) (dir name data : string) : M unit := λ w,
  match dirs w !! dir with
  | Some d =>
      let old := from_option content "" (d !! name) in
      (Done (), World (rooms_file w) (otp_file w)
                      (<[dir := <[name := File stamp (old +:+ data)]> d]> (dirs w))
                      (log (Wrote (join dir name)) w))
  | None => no_such_dir dir (join dir name) w
  end.

(** *** One-time codes *)

(** [str(n)] for an integer. *)
Definition str (n : Z) : string := pretty n.

(** [generate_otp]; [draw] is what [random.randint(100000, 999999)]
    returns and [now] what [time.time()] returns. *)
Definition generate_otp (draw : Z) (now : Q) (username : string) : M string :=
  let otp := str draw in
  data ← load_otps;
  let data := <[username := OtpEntry otp now]> data in
  save_otps data;;
  mret otp.

(** [validate_otp]; [now] is what [time.time()] returns. *)
Definition validate_otp (now : Q) (username input_otp : string) : M bool :=
  data ← load_otps;
  match data !! username with
  | Some entry =>
      if Qlt_le_dec 300 (now - timestamp entry) then mret false
      else mret (bool_decide (otp entry = input_otp))
  | None => mret false
  end.

(** *** The retention sweep *)

(** [timedelta(hours=AUTO_DELETE_HOURS)] in microseconds. *)
Definition retention : Z := AUTO_DELETE_HOURS * 3600 * 1000000.

(** The body of the [for] loop of [cleanup_old_files]. *)
Definition cleanup_step (now : Z) (folder fname : string) : M unit :=
  if bool_decide (fname = "chat.txt") then mret ()
  else
    modified ← getmtime folder fname;
    if retention <? now - modified then remove folder fname else mret ().

Fixpoint cleanup_loop (now : Z) (folder : string) (names : list string) : M unit :=
  match names with
  | [] => mret ()
  | fname :: rest => cleanup_step now folder fname;; cleanup_loop now folder rest
  end.

(** [cleanup_old_files]; [now] is what [datetime.now()] returns. *)
Definition cleanup_old_files (now : Z) (folder : string) : M unit :=
  names ← listdir folder;
  cleanup_loop now folder names.

(** *** The login portal *)

(** [f"secure_rooms/{room}"].  Different room names give different
    paths; different paths are different directories for the names that
    are a path component of their own, see [entry_name]. *)
Definition room_path (room : string) : string := "secure_rooms/" +:+ room.

(** How the room of a login was resolved: the [else] branch created it,
    the [if] branch found its password right.  A wrong password stops
    the handler with [IncorrectRoomPassword]. *)
Inductive resolution := Created | Verified.

(** Lines 98 to 109: load the table, materialise the directory, then
    check the password of a known room or register an unknown one. *)
Definition bootstrap_or_verify (room password : string) : M resolution :=
  room_passwords ← load_room_passwords;
  makedirs (room_path room);;
  match room_passwords !! room with
  | Some hashed =>
      if negb (check_password password hashed) then stop IncorrectRoomPassword
      else mret Verified
  | None =>
      save_room_passwords (<[room := hash_pw password]> room_passwords);;
      mret Created
  end.

(** [st.session_state] after a login. *)
Record session := Session {
  authenticated : bool;
  session_username : string;
  session_room : string
}.

(** [not s] for a string. *)
Definition falsy (s : string) : bool := bool_decide (s = "").

(** The body of [if login_btn:]; [now] is what [time.time()] returns
    inside [validate_otp]. *)
Definition login (now : Q) (username room password otp_input : string)
  : M (resolution * session) :=
  if falsy username || falsy room || falsy password || falsy otp_input
  then stop AllFieldsRequired
  else
    valid ← validate_otp now username otp_input;
    if negb valid then stop InvalidOrExpiredOtp
    else
      r ← bootstrap_or_verify room password;
      mret (r, Session true username room).

(** The [Request OTP] button, shown once the three fields are filled. *)
Definition request_otp (draw : Z) (now : Q) (username room password : string)
  : M (option string) :=
  if falsy username || falsy room || falsy password then mret None
  else code ← generate_otp draw now username; mret (Some code).

(** *** Inside a room *)

Definition chat_file : string := "chat.txt".

(** Room setup, lines 119 to 126: the directory and an empty transcript. *)
Definition room_setup (stamp : Z) (room : string) : M unit :=
  makedirs (room_path room);;
  present ← exists_file (room_path room) chat_file;
  if negb present then write_file stamp (room_path room) chat_file "" else mret ().

(** The upload section: [uploaded_file.name] and [uploaded_file.read()]. *)
Definition upload (stamp : Z) (room name data : string) : M unit :=
  write_file stamp (room_path room) name data.

(** [files = [f for f in os.listdir(room_path) if f != "chat.txt"]] *)
Definition shared_files (room : string) : M (list string) :=
  names ← listdir (room_path room);
  mret (filter (λ f, f ≠ "chat.txt") names).

(** [str.isspace] on code points below 256. *)
Definition isspace (c : ascii) : bool :=
  let n := N_of_ascii c in
  ((9 <=? n) && (n <=? 13) || (28 <=? n) && (n <=? 32)
   || (n =? 133) || (n =? 160))%N.

Fixpoint lstrip (s : string) : string :=
  match s with
  | String c s' => if isspace c then lstrip s' else s
  | EmptyString => EmptyString
  end.

Fixpoint rstrip (s : string) : string :=
  match s with
  | String c s' =>
      let r := rstrip s' in
      if isspace c && falsy r then EmptyString else String c r
  | EmptyString => EmptyString
  end.

(** [str.strip()] *)
Definition strip (s : string) : string := rstrip (lstrip s).

(** The fields of a [datetime] that ["%Y-%m-%d %H:%M"] prints. *)
Record datetime := DateTime {
  year : Z; month : Z; day : Z; hour : Z; minute : Z }.

Definition digit (d : Z) : ascii := ascii_of_N (Z.to_N (48 + d)).

(** [%m], [%d], [%H], [%M]: two digits, zero padded. *)
Definition two_digits (n : Z) : string :=
  String (digit (n / 10)) (String (digit (n mod 10)) "").

(** [strftime("%Y-%m-%d %H:%M")]; [%Y] is the year in decimal, which the
    C library does not pad. *)
Definition strftime (t : datetime) : string :=
  str (year t) +:+ "-" +:+ two_digits (month t) +:+ "-" +:+ two_digits (day t)
  +:+ " " +:+ two_digits (hour t) +:+ ":" +:+ two_digits (minute t).

Definition LF : ascii := "010"%char.
Definition newline : string := String LF "".

(** [f"[{timestamp}] {username}: {message.strip()}\n"] *)
Definition chat_line (timestamp username message : string) : string :=
  "[" +:+ timestamp +:+ "] " +:+ username +:+ ": " +:+ strip message
  +:+ newline.

(** The bytes a text-mode [write] puts in the file: the UTF-8 encoding
    of the string (a line feed stays a line feed on Linux). *)
Definition utf8_bytes (c : ascii) : string :=
  string_of_list_ascii ((λ b, ascii_of_N (Z.to_N b)) <$> utf8 c).

Fixpoint encode_text (s : string) : string :=
  match s with
  | String c s' => utf8_bytes c +:+ encode_text s'
  | EmptyString => EmptyString
  end.

(** The chat form once [Send] is pressed; [now] is what [datetime.now()]
    returns and [stamp] the modification time the append records. *)
Definition send_message (stamp : Z) (now : datetime) (room username message : string)
  : M unit :=
  if negb (falsy (strip message))
  then append_file stamp (room_path room) chat_file
                   (encode_text (chat_line (strftime now) username message))
  else mret ().

(** [Clear all files in room] *)
Fixpoint remove_all (dir : string) (names : list string) : M unit :=
  match names with
  | [] => mret ()
  | fname :: rest => remove dir fname;; remove_all dir rest
  end.

Definition clear_files (room : string) : M unit :=
  files ← shared_files room;
  remove_all (room_path room) files.

(** [Clear chat log]: [open(chat_file, "w")] and nothing written. *)
Definition clear_chat (stamp : Z) (room : string) : M unit :=
  write_file stamp (room_path room) chat_file "".

(** *** What a client can make the application do *)

Inductive action :=
  | RequestOtp (draw : Z) (now : Q) (username room password : string)
  | Login (now : Q) (username room password otp_input : string)
  | EnterRoom (stamp now : Z) (room : string)
  | Upload (stamp : Z) (room name data : string)
  | SendMessage (stamp : Z) (now : datetime) (room username message : string)
  | ClearFiles (room : string)
  | ClearChat (stamp : Z) (room : string).

(** The persisted state an action leaves behind, whatever its outcome. *)
Definition perform (a : action) (w : world) : world :=
  match a with
  | RequestOtp draw now u r p => (request_otp draw now u r p w).2
  | Login now u r p o => (login now u r p o w).2
  | EnterRoom stamp now r =>
      ((room_setup stamp r;; cleanup_old_files now (room_path r)) w).2
  | Upload stamp r n d => (upload stamp r n d w).2
  | SendMessage stamp now r u m => (send_message stamp now r u m w).2
  | ClearFiles r => (clear_files r w).2
  | ClearChat stamp r => (clear_chat stamp r w).2
  end.

Definition perform_all (acts : list action) (w : world) : world :=
  fold_left (λ w a, perform a w) acts w.

(** The store before the application has ever run. *)
Definition fresh : world := World None None ∅ [].

(** The tables as [load_room_passwords] and [load_otps] return them. *)
Definition rooms_table (w : world) : gmap string string :=
  default ∅ (rooms_file w).

Definition otp_table (w : world) : gmap string otp_entry :=
  default ∅ (otp_file w).

(** Lines 55 to 57 of [validate_otp], as a function of the entry found. *)
Definition otp_accepts (now : Q) (input_otp : string) (e : otp_entry) : bool :=
  if Qlt_le_dec 300 (now - timestamp e) then false
  else bool_decide (otp e = input_otp).

(** The entries the sweep leaves in a directory: the transcript, and
    every file whose age does not exceed the retention time. *)
Definition kept (now : Z) (entry : string * file) : Prop :=
  entry.1 = "chat.txt" ∨ now - mtime entry.2 ≤ retention.

Global Instance kept_dec now entry : Decision (kept now entry).
Proof. unfold kept. apply _. Defined.

(** A message that is empty or holds nothing but whitespace. *)
Fixpoint all_space (s : string) : bool :=
  match s with
  | String c s' => isspace c && all_space s'
  | EmptyString => true
  end.

(** The line as the specification words it, with the text as given. *)
Definition spec_chat_line (timestamp username text : string) : string :=
  "[" +:+ timestamp +:+ "] " +:+ username +:+ ": " +:+ text +:+ newline.

(** The ranges [datetime] keeps its fields in, for a year of four digits. *)
Definition valid_datetime (t : datetime) : Prop :=
  1000 ≤ year t ≤ 9999 ∧ 1 ≤ month t ≤ 12 ∧ 1 ≤ day t ≤ 31
  ∧ 0 ≤ hour t ≤ 23 ∧ 0 ≤ minute t ≤ 59.

Definition is_digit (c : ascii) : bool :=
  let n := N_of_ascii c in ((48 <=? n) && (n <=? 57))%N.

(** The shape [YYYY-MM-DD HH:MM]. *)
Definition timestamp_shape (s : string) : bool :=
  match s with
  | String y1 (String y2 (String y3 (String y4 (String s1
      (String m1 (String m2 (String s2 (String d1 (String d2 (String s3
      (String h1 (String h2 (String s4 (String n1 (String n2
      EmptyString))))))))))))))) =>
      forallb is_digit [y1; y2; y3; y4; m1; m2; d1; d2; h1; h2; n1; n2]
      && bool_decide (s1 = "-"%char) && bool_decide (s2 = "-"%char)
      && bool_decide (s3 = " "%char) && bool_decide (s4 = ":"%char)
  | _ => false
  end.

Definition CR : ascii := "013"%char.

(** How many line breaks, line feeds or carriage returns, a string
    holds. *)
Fixpoint line_breaks (s : string) : nat :=
  match s with
  | String c s' =>
      (if bool_decide (c = LF) || bool_decide (c = CR) then 1 else 0)
      + line_breaks s'
  | EmptyString => 0
  end%nat.

(** The bytes of the transcript of a room, when it has one. *)
Definition transcript (room : string) (w : world) : option string :=
  content <$> lookup_file (room_path room) chat_file w.

(** A room to try the handlers on: a transcript, a file past the
    retention time at [demo_now] and a recent one. *)
Definition demo_dir : gmap string file :=
  {[ "chat.txt" := File 0 "[2024-03-07 09:05] alice: hi";
     "old.bin" := File 0 "x";
     "new.bin" := File 40000000000 "y" ]}.

Definition demo_now : Z := 50000000000.

Definition demo : world :=
  World (Some {[ "r" := hash_pw "pw" ]})
        (Some {[ "alice" := OtpEntry "123456" 1000 ]})
        {[ room_path "r" := demo_dir ]} [].

(** What no handler undoes: a registered room keeps its hash, and a
    directory that exists goes on existing. *)
Definition grows (w w' : world) : Prop :=
  (∀ r h, rooms_table w !! r = Some h → rooms_table w' !! r = Some h) ∧
  (∀ p, is_Some (dirs w !! p) → is_Some (dirs w' !! p)).

(** Every registered room has its directory. *)
Definition known_rooms_have_dirs (w : world) : Prop :=
  ∀ r, is_Some (rooms_table w !! r) → is_Some (dirs w !! room_path r).

(** The effect of every call but [save_room_passwords]: the credential
    table is as it was and no directory is lost. *)
Definition keeps_rooms (w w' : world) : Prop :=
  rooms_file w' = rooms_file w ∧
  (∀ p, is_Some (dirs w !! p) → is_Some (dirs w' !! p)).

(** A handler whose final state is always related to its initial one. *)
Definition preserves (R : world → world → Prop) {A} (m : M A) : Prop :=
  ∀ w, R w (m w).2.

Arguments hash_pw : simpl never.

(** ** Further vocabulary for the handlers *)

(** Every character of a string passes a test. *)
Fixpoint string_forall (p : ascii → bool) (s : string) : bool :=
  match s with
  | String c s' => p c && string_forall p s'
  | EmptyString => true
  end.

(** The digits [hexdigest] prints: [0-9a-f]. *)
Definition is_lower_hex (c : ascii) : bool :=
  let n := N_of_ascii c in
  ((48 <=? n) && (n <=? 57) || (97 <=? n) && (n <=? 102))%N.

(** The shape [hexdigest] gives a SHA-256 digest. *)
Definition digest_shape (h : string) : Prop :=
  String.length h = 64%nat ∧ string_forall is_lower_hex h = true.

(** Only logins with all fields filled register rooms, and they store
    digests. *)
Definition registered_by_login (w : world) : Prop :=
  ∀ r h, rooms_table w !! r = Some h →
         r ≠ "" ∧ ∃ p, p ≠ "" ∧ h = hash_pw p.

(** The shape of a code for a draw of [random.randint(100000, 999999)]:
    six digits, the first not [0]. *)
Definition otp_shape (code : string) : Prop :=
  String.length code = 6%nat ∧ string_forall is_digit code = true
  ∧ ∃ c rest, code = String c rest ∧ c ≠ "0"%char.

(** No field of the login form is left empty. *)
Definition filled (username room password otp_input : string) : Prop :=
  username ≠ "" ∧ room ≠ "" ∧ password ≠ "" ∧ otp_input ≠ "".

(** The user holds a record that has not expired at [now] and whose
    code is the candidate. *)
Definition otp_valid (now : Q) (username candidate : string) (w : world) : Prop :=
  ∃ e, otp_table w !! username = Some e
       ∧ ¬ (300 < now - timestamp e)%Q ∧ otp e = candidate.

(** An entry of a directory that the sweep removes: not the transcript
    and older than the retention time. *)
Definition stale (now : Z) (d : gmap string file) (name : string) : bool :=
  match d !! name with
  | Some f => bool_decide (¬ kept now (name, f))
  | None => false
  end.

(** ** [st.session_state] and the page around the handlers *)

(** What the script keeps in the session: strings and [True]. *)
Inductive value := Text (s : string) | Flag (b : bool).

(** Python's truth value of such a value. *)
Definition truthy (v : value) : bool :=
  match v with
  | Text s => negb (falsy s)
  | Flag b => b
  end.

Definition SESSION_KEYS : list string :=
  ["authenticated"; "username"; "room"; "otp_verified"].

(** [if key not in st.session_state: st.session_state[key] = ""] *)
Definition init_key (state : gmap string value) (key : string)
  : gmap string value :=
  match state !! key with
  | Some _ => state
  | None => <[key := Text ""]> state
  end.

(** Session initialisation, lines 70 to 72. *)
Definition init_session (state : gmap string value) : gmap string value :=
  foldl init_key state SESSION_KEYS.

(** The three assignments that end a successful login, lines 111 to 113. *)
Definition sign_in (username room : string) (state : gmap string value)
  : gmap string value :=
  <["room" := Text room]>
    (<["username" := Text username]> (<["authenticated" := Flag true]> state)).

(** [st.session_state.clear()] of the logout button. *)
Definition logout (state : gmap string value) : gmap string value := ∅.

(** [not st.session_state.authenticated]: whether the page shows the
    login portal; nothing when the key is not there. *)
Definition portal_shown (state : gmap string value) : option bool :=
  v ← state !! "authenticated"; Some (negb (truthy v)).

(** *** The icon of a shared file *)

Inductive icon := Page | Picture | Book | Archive | Scroll.

(** [str.lower] on code points below 256. *)
Definition lower_char (c : ascii) : ascii :=
  let n := N_of_ascii c in
  if ((65 <=? n) && (n <=? 90)
      || (192 <=? n) && (n <=? 222) && negb (n =? 215))%N
  then ascii_of_N (n + 32) else c.

Fixpoint lower (s : string) : string :=
  match s with
  | String c s' => String (lower_char c) (lower s')
  | EmptyString => EmptyString
  end.

(** [s.endswith(suffix)] *)
Fixpoint endswith (s suffix : string) : bool :=
  bool_decide (s = suffix)
  || match s with
     | String _ s' => endswith s' suffix
     | EmptyString => false
     end.

(** [s.endswith((suffix, ...))] *)
Definition endswith_any (s : string) (suffixes : list string) : bool :=
  existsb (endswith s) suffixes.

Definition PICTURES : list string := [".png"; ".jpg"; ".jpeg"].
Definition ARCHIVES : list string := [".zip"; ".rar"].
Definition TEXTS : list string := [".txt"; ".md"; ".log"; ".py"].

(** The [if]/[elif] chain of lines 158 to 166. *)
Definition file_icon (fname : string) : icon :=
  if endswith_any (lower fname) PICTURES then Picture
  else if endswith (lower fname) ".pdf" then Book
  else if endswith_any (lower fname) ARCHIVES then Archive
  else if endswith_any (lower fname) TEXTS then Scroll
  else Page.

(** The room an action names. *)
Definition action_room (a : action) : string :=
  match a with
  | RequestOtp _ _ _ r _ | Login _ _ r _ _ | EnterRoom _ _ r
  | Upload _ r _ _ | SendMessage _ _ r _ _ | ClearFiles r | ClearChat _ r => r
  end.

(** The actions made from inside a room, after the login. *)
Definition in_room (a : action) : bool :=
  match a with
  | RequestOtp _ _ _ _ _ | Login _ _ _ _ _ => false
  | _ => true
  end.

(** A name the file system takes for an entry of its own: one path
    component, no null byte, at most [NAME_MAX] bytes. *)
Definition name_ok (name : string) : bool :=
  entry_name name && negb (has_char NUL name)
  && (Z.of_nat (length (encode name)) <=? NAME_MAX).

(** A room name whose directory is a directory of its own directly
    under [secure_rooms]: a valid entry name that is not the name of
    one of the two tables. *)
Definition room_ok (room : string) : bool :=
  name_ok room && negb (table_name room).

(** The actions the model follows to the end: the room has a directory
    of its own, and an uploaded file an entry of its own in it.
    [Request OTP] touches no directory. *)
Definition modelled (a : action) : bool :=
  match a with
  | RequestOtp _ _ _ _ _ => true
  | Upload _ r n _ => room_ok r && name_ok n
  | Login _ _ r _ _ | EnterRoom _ _ r | SendMessage _ _ r _ _
  | ClearFiles r | ClearChat _ r => room_ok r
  end.

(** The effect of a file-system call on directory [p]: the two tables
    and every other directory are as they were. *)
Definition local_to (p : string) (w w' : world) : Prop :=
  rooms_file w' = rooms_file w ∧ otp_file w' = otp_file w ∧
  (∀ path, path ≠ p → dirs w' !! path = dirs w !! path).

(** * Properties *)

(** ** The digest against [hashlib] *)

Example hash_pw_empty :
  hash_pw "" = "e3b0c44298fc1c149afbf4c8996fb92427ae41e4649b934ca495991b7852b855".
Proof. vm_compute. reflexivity. Qed.

Example hash_pw_abc :
  hash_pw "abc" = "ba7816bf8f01cfea414140de5dae2223b00361a396177a9cb410ff61f20015ad".
Proof. vm_compute. reflexivity. Qed.

Example hash_pw_two_blocks :
  hash_pw "aaaaaaaaaaaaaaaaaaaaaaaaaaaaaaaaaaaaaaaaaaaaaaaaaaaaaaaa"
  = "b35439a4ac6f0948b6d6f9e3c6af0f5f590ce20f1bde7090ef7970686ec6738a".
Proof. vm_compute. reflexivity. Qed.

Example hash_pw_one_full_block :
  hash_pw "aaaaaaaaaaaaaaaaaaaaaaaaaaaaaaaaaaaaaaaaaaaaaaaaaaaaaaaaaaaaaaaa"
  = "ffe054fe7ae0cb6dc65c3af9b61d5209f439851db43d0ba5997337df154668eb".
Proof. vm_compute. reflexivity. Qed.

(** U+00E9 encodes to the two bytes C3 A9. *)
Example hash_pw_latin1 :
  hash_pw (String (ascii_of_N 233) "")
  = "4a99557e4033c3539de2eb65472017cad5f9557f7a0625a09f1c3f6e2ba69c4c".
Proof. vm_compute. reflexivity. Qed.

(** ** Running handlers *)

Lemma load_room_passwords_run w :
  load_room_passwords w = (Done (rooms_table w), w).
Proof. unfold load_room_passwords, rooms_table. by destruct (rooms_file w). Qed.

Lemma load_otps_run w : load_otps w = (Done (otp_table w), w).
Proof. unfold load_otps, otp_table. by destruct (otp_file w). Qed.

Lemma bind_run {A B} (m : M A) (k : A → M B) w a w' :
  m w = (Done a, w') → (m ≫= k) w = k a w'.
Proof. intros H. unfold mbind, M_bind. by rewrite H. Qed.

Lemma bind_stopped {A B} (m : M A) (k : A → M B) w n w' :
  m w = (Stopped n, w') → (m ≫= k) w = (Stopped n, w').
Proof. intros H. unfold mbind, M_bind. by rewrite H. Qed.

Lemma bind_raised {A B} (m : M A) (k : A → M B) w e w' :
  m w = (Raised e, w') → (m ≫= k) w = (Raised e, w').
Proof. intros H. unfold mbind, M_bind. by rewrite H. Qed.

(** ** One-time codes *)

Section Otp.
Local Open Scope Q_scope.

Lemma validate_otp_run now u c w :
  validate_otp now u c w
  = (Done (from_option (otp_accepts now c) false (otp_table w !! u)), w).
Proof.
  unfold validate_otp. rewrite (bind_run _ _ _ _ _ (load_otps_run w)).
  destruct (otp_table w !! u) as [e|]; simpl; [|done].
  unfold otp_accepts. by destruct (Qlt_le_dec 300 (now - timestamp e)).
Qed.

Lemma generate_otp_run draw now u w :
  generate_otp draw now u w
  = (Done (str draw),
     World (rooms_file w)
           (Some (<[u := OtpEntry (str draw) now]> (otp_table w)))
           (dirs w) (Wrote OTP_FILE :: io_log w)).
Proof.
  unfold generate_otp. by rewrite (bind_run _ _ _ _ _ (load_otps_run w)).
Qed.

Lemma otp_accepts_true now c e :
  otp_accepts now c e = true ↔ ¬ (300 < now - timestamp e) ∧ otp e = c.
Proof.
  unfold otp_accepts. destruct (Qlt_le_dec 300 (now - timestamp e)) as [Hlt|Hle].
  - split; [done|]. intros [Hn _]. by destruct Hn.
  - rewrite bool_decide_eq_true. split; [|tauto].
    intros ->. split; [|done]. by apply Qle_not_lt.
Qed.

(** C2: [validate_otp] answers [False] exactly when the user has no
    record, or the record is older than 300 seconds, or the candidate
    is not the stored code; it answers [True] in every other case, and
    it always answers. *)
Theorem validate_otp_false_iff now u c w :
  ∃ b, (validate_otp now u c w).1 = Done b ∧
    (b = false ↔
       otp_table w !! u = None
       ∨ (∃ e, otp_table w !! u = Some e ∧ 300 < now - timestamp e)
       ∨ (∃ e, otp_table w !! u = Some e ∧ otp e ≠ c)) ∧
    (b = true ↔
       ∃ e, otp_table w !! u = Some e
            ∧ ¬ (300 < now - timestamp e) ∧ otp e = c).
Proof.
  rewrite validate_otp_run. eexists; split; [done|].
  destruct (otp_table w !! u) as [e|]; simpl.
  - pose proof (otp_accepts_true now c e) as Ht.
    destruct (otp_accepts now c e); split.
    + split; [done|]. intros [?|[(e' & [= <-] & Hold)|(e' & [= <-] & Hne)]]; [done|..].
      * destruct Ht as [Ht _]. by destruct (Ht eq_refl).
      * destruct Ht as [Ht _]. by destruct (Ht eq_refl).
    + split; [|done]. intros _. exists e. split; [done|]. by apply Ht.
    + split; [|done]. intros _.
      destruct (Qlt_le_dec 300 (now - timestamp e)) as [Hlt|Hle].
      * right; left. eauto.
      * right; right. exists e. split; [done|]. intros Heq.
        assert (false = true) as [=]. apply Ht. split; [by apply Qle_not_lt|done].
    + split; [done|]. intros (e' & [= <-] & Hin & Heq).
      destruct Ht as [_ Ht]. by specialize (Ht (conj Hin Heq)).
  - split; [naive_solver|]. split; [done|]. by intros (e & [=] & _).
Qed.

(** C7: [validate_otp] leaves the persisted state as it found it,
    whatever it answers; so a code that validated once validates again
    at any later reading of the clock that is still within 300 seconds
    of its issue. *)
Theorem validate_otp_replay now now' u c w e :
  otp_table w !! u = Some e →
  (validate_otp now u c w).1 = Done true →
  now' - timestamp e <= 300 →
  (∀ t u' c', (validate_otp t u' c' w).2 = w) ∧
  otp_table (validate_otp now u c w).2 !! u = Some e ∧
  (validate_otp now' u c (validate_otp now u c w).2).1 = Done true.
Proof.
  intros He Hok Hwin. split; [|split].
  - intros. by rewrite validate_otp_run.
  - by rewrite validate_otp_run.
  - rewrite !validate_otp_run in *. simpl in *. rewrite He in *. simpl in *.
    injection Hok as Hok. apply otp_accepts_true in Hok as [_ Hc].
    f_equal. apply otp_accepts_true. split; [by apply Qle_not_lt|done].
Qed.

Lemma validate_otp_replay_witness :
  let w := (generate_otp 123456 1000 "alice" fresh).2 in
  (∀ t u' c', (validate_otp t u' c' w).2 = w) ∧
  otp_table (validate_otp 1010 "alice" "123456" w).2 !! "alice"
    = Some (OtpEntry "123456" 1000) ∧
  (validate_otp 1300 "alice" "123456"
     (validate_otp 1010 "alice" "123456" w).2).1 = Done true.
Proof.
  apply (validate_otp_replay 1010 1300 "alice" "123456" _ (OtpEntry "123456" 1000)).
  - reflexivity.
  - reflexivity.
  - vm_compute. discriminate.
Defined.

(** C4: after two calls of [generate_otp] for one user, the table
    holds one record for that user, the second code with the second
    reading of the clock; within 300 seconds of the second call
    [validate_otp] accepts the second code and nothing else, so the
    first code is refused whenever the two codes differ. *)
Theorem generate_otp_twice d1 d2 t1 t2 now u w :
  now - t2 <= 300 →
  let '(r1, w1) := generate_otp d1 t1 u w in
  let '(r2, w2) := generate_otp d2 t2 u w1 in
  ∃ code1 code2,
    r1 = Done code1 ∧ r2 = Done code2 ∧
    otp_table w2 !! u = Some (OtpEntry code2 t2) ∧
    (∀ c, (validate_otp now u c w2).1 = Done (bool_decide (c = code2))) ∧
    (code1 ≠ code2 → (validate_otp now u code1 w2).1 = Done false) ∧
    (validate_otp now u code2 w2).1 = Done true.
Proof.
  intros Hwin. rewrite !generate_otp_run.
  exists (str d1), (str d2). split; [done|]. split; [done|].
  assert (∀ c, (validate_otp now u c
      (World (rooms_file w)
         (Some (<[u:=OtpEntry (str d2) t2]>
            (otp_table (World (rooms_file w)
               (Some (<[u:=OtpEntry (str d1) t1]> (otp_table w)))
               (dirs w) (Wrote OTP_FILE :: io_log w)))))
         (dirs w) (Wrote OTP_FILE :: Wrote OTP_FILE :: io_log w))).1
      = Done (bool_decide (c = str d2))) as Hval.
  { intros c. rewrite validate_otp_run. unfold otp_table at 1. simpl.
    rewrite lookup_insert_eq. simpl. f_equal. unfold otp_accepts. simpl.
    destruct (Qlt_le_dec 300 (now - t2)) as [Hlt|_].
    - by destruct (Qle_not_lt _ _ Hwin).
    - apply bool_decide_ext. naive_solver. }
  split; [|split; [done|split]].
  - unfold otp_table at 1. simpl. by rewrite lookup_insert_eq.
  - intros Hne. rewrite Hval. by rewrite bool_decide_eq_false_2.
  - rewrite Hval. by rewrite bool_decide_eq_true_2.
Qed.

Lemma generate_otp_twice_witness :
  let '(r1, w1) := generate_otp 123456 1000 "alice" fresh in
  let '(r2, w2) := generate_otp 654321 1100 "alice" w1 in
  ∃ code1 code2,
    r1 = Done code1 ∧ r2 = Done code2 ∧
    otp_table w2 !! "alice" = Some (OtpEntry code2 1100) ∧
    (∀ c, (validate_otp 1200 "alice" c w2).1 = Done (bool_decide (c = code2))) ∧
    (code1 ≠ code2 → (validate_otp 1200 "alice" code1 w2).1 = Done false) ∧
    (validate_otp 1200 "alice" code2 w2).1 = Done true.
Proof.
  apply (generate_otp_twice 123456 654321 1000 1100 1200 "alice" fresh).
  vm_compute. discriminate.
Defined.

(** C10: [generate_otp] for one user leaves the record of every other
    user, code and issue time, as it was. *)
Theorem generate_otp_frame draw now u v w :
  v ≠ u →
  otp_table (generate_otp draw now u w).2 !! v = otp_table w !! v.
Proof.
  intros Hne. rewrite generate_otp_run. unfold otp_table at 1. simpl.
  by rewrite lookup_insert_ne.
Qed.

Lemma generate_otp_frame_witness :
  let w := (generate_otp 123456 1000 "bob" fresh).2 in
  otp_table (generate_otp 654321 1100 "alice" w).2 !! "bob" = otp_table w !! "bob".
Proof.
  apply (generate_otp_frame 654321 1100 "alice" "bob"). discriminate.
Defined.

End Otp.

(** ** The retention sweep *)

(** The window of the sweep is 12 hours. *)
Lemma retention_hours : retention = 12 * 3600 * 1000000.
Proof. reflexivity. Qed.

Section Sweep.
Variables (now : Z) (folder : string).

Lemma cleanup_step_run fname w d f :
  dirs w !! folder = Some d → d !! fname = Some f →
  cleanup_step now folder fname w
  = if decide (kept now (fname, f)) then (Done (), w)
    else (Done (), World (rooms_file w) (otp_file w)
                         (<[folder := delete fname d]> (dirs w))
                         (Removed (join folder fname) :: io_log w)).
Proof.
  intros Hd Hf. unfold cleanup_step, kept. simpl.
  destruct (decide (fname = "chat.txt")) as [->|Hname].
  { rewrite bool_decide_eq_true_2 by done. rewrite decide_True; [done|by left]. }
  rewrite bool_decide_eq_false_2 by done.
  assert (getmtime folder fname w = (Done (mtime f), w)) as Hm.
  { unfold getmtime, lookup_file. rewrite Hd. simpl. by rewrite Hf. }
  rewrite (bind_run _ _ _ _ _ Hm).
  destruct (Z.ltb_spec retention (now - mtime f)) as [Hlt|Hle].
  - rewrite decide_False by (intros [?|?]; [done|lia]).
    unfold remove. by rewrite Hd, Hf.
  - rewrite decide_True; [done|by right].
Qed.

(** The loop over any duplicate-free enumeration of entries of the
    directory: each name listed is kept or removed on its own merits. *)
Lemma cleanup_loop_run names : ∀ w d,
  dirs w !! folder = Some d →
  NoDup names →
  (∀ n, n ∈ names → is_Some (d !! n)) →
  ∃ w', cleanup_loop now folder names w = (Done (), w') ∧
    rooms_file w' = rooms_file w ∧ otp_file w' = otp_file w ∧
    dirs w' = <[folder := filter (λ e, e.1 ∈ names → kept now e) d]> (dirs w).
Proof.
  induction names as [|fname rest IH]; intros w d Hd Hnd Hin.
  - exists w. simpl. repeat split.
    rewrite map_filter_id; [by rewrite insert_id|].
    intros ? ? _ Hempty. by apply elem_of_nil in Hempty.
  - apply NoDup_cons in Hnd as [Hfresh Hnd].
    destruct (Hin fname) as [f Hf]; [by left|].
    simpl. pose proof (cleanup_step_run fname w d f Hd Hf) as Hstep.
    destruct (decide (kept now (fname, f))) as [Hk|Hk].
    + rewrite (bind_run _ _ _ _ _ Hstep).
      destruct (IH w d Hd Hnd) as (w' & Hrun & Hr & Ho & Hdirs).
      { intros n Hn. apply Hin. by right. }
      exists w'. rewrite Hrun, Hdirs. repeat split; [done..|].
      f_equal. apply map_filter_ext. intros n x Hx. simpl. split.
      * intros Hrest [->|Hn]%elem_of_cons; [|by auto].
        by rewrite Hf in Hx; injection Hx as <-.
      * intros Hall Hn. apply Hall. by right.
    + rewrite (bind_run _ _ _ _ _ Hstep).
      edestruct (IH (World (rooms_file w) (otp_file w)
                           (<[folder := delete fname d]> (dirs w))
                           (Removed (join folder fname) :: io_log w))
                    (delete fname d))
        as (w' & Hrun & Hr & Ho & Hdirs); [by apply lookup_insert_eq|done| |].
      { intros n Hn. rewrite lookup_delete_ne by (intros ->; done).
        apply Hin. by right. }
      exists w'. rewrite Hrun, Hdirs. simpl in *. repeat split; [done..|].
      rewrite insert_insert_eq. f_equal.
      apply map_eq. intros n. apply option_eq. intros x.
      rewrite !map_lookup_filter_Some. simpl.
      destruct (decide (n = fname)) as [->|Hn].
      * rewrite lookup_delete_eq. split; [by intros [? _]|].
        intros [Hx Hall]. rewrite Hf in Hx. injection Hx as <-.
        destruct Hk. apply Hall. by left.
      * rewrite lookup_delete_ne by done. split.
        -- intros [Hx Hrest]. split; [done|].
           intros [->|?]%elem_of_cons; [done|by auto].
        -- intros [Hx Hall]. split; [done|]. intros ?. apply Hall. by right.
Qed.

(** Nothing is touched when every listed entry is one the sweep keeps. *)
Lemma cleanup_loop_noop names : ∀ w d,
  dirs w !! folder = Some d →
  (∀ n, n ∈ names → ∃ f, d !! n = Some f ∧ kept now (n, f)) →
  cleanup_loop now folder names w = (Done (), w).
Proof.
  induction names as [|fname rest IH]; intros w d Hd Hin; [done|].
  destruct (Hin fname) as (f & Hf & Hk); [by left|].
  simpl. pose proof (cleanup_step_run fname w d f Hd Hf) as Hstep.
  rewrite decide_True in Hstep by done.
  rewrite (bind_run _ _ _ _ _ Hstep).
  apply (IH w d Hd). intros n Hn. apply Hin. by right.
Qed.

Lemma listdir_run w d :
  dirs w !! folder = Some d → listdir folder w = (Done (map_to_list d).*1, w).
Proof. intros Hd. unfold listdir. by rewrite Hd. Qed.

Lemma listed_iff (d : gmap string file) n :
  n ∈ (map_to_list d).*1 ↔ is_Some (d !! n).
Proof.
  rewrite list_elem_of_fmap. split.
  - intros ([n' f] & -> & Hin). apply elem_of_map_to_list in Hin. by eexists.
  - intros [f Hf]. exists (n, f). split; [done|]. by apply elem_of_map_to_list.
Qed.

Lemma cleanup_old_files_run w d :
  dirs w !! folder = Some d →
  cleanup_old_files now folder w
  = (Done (), (cleanup_old_files now folder w).2) ∧
  rooms_file (cleanup_old_files now folder w).2 = rooms_file w ∧
  otp_file (cleanup_old_files now folder w).2 = otp_file w ∧
  dirs (cleanup_old_files now folder w).2
  = <[folder := filter (kept now) d]> (dirs w).
Proof.
  intros Hd. unfold cleanup_old_files.
  rewrite (bind_run _ _ _ _ _ (listdir_run w d Hd)).
  destruct (cleanup_loop_run (map_to_list d).*1 w d Hd)
    as (w' & Hrun & Hr & Ho & Hdirs).
  { apply NoDup_fst_map_to_list. }
  { intros n. by rewrite listed_iff. }
  rewrite Hrun. simpl. repeat split; [done..|].
  rewrite Hdirs. f_equal. apply map_filter_ext. intros n f Hf. simpl.
  split; [|by auto]. intros Hall. apply Hall. rewrite listed_iff. by eexists.
Qed.

(** [os.listdir] promises no order: whatever order it lists the
    directory in, the loop ends in the same state. *)
Lemma cleanup_loop_any_order names w d :
  dirs w !! folder = Some d →
  names ≡ₚ (map_to_list d).*1 →
  ∃ w', cleanup_loop now folder names w = (Done (), w') ∧
    rooms_file w' = rooms_file w ∧ otp_file w' = otp_file w ∧
    dirs w' = <[folder := filter (kept now) d]> (dirs w).
Proof.
  intros Hd Hperm.
  destruct (cleanup_loop_run names w d Hd) as (w' & Hrun & Hr & Ho & Hdirs).
  { rewrite Hperm. apply NoDup_fst_map_to_list. }
  { intros n. rewrite Hperm. by rewrite listed_iff. }
  exists w'. repeat split; [done..|].
  rewrite Hdirs. f_equal. apply map_filter_ext. intros n f Hf. simpl.
  split; [|by auto]. intros Hall. apply Hall.
  rewrite Hperm, listed_iff. by eexists.
Qed.

(** C5: on a room directory, [cleanup_old_files] returns normally and
    leaves exactly the entries that are [chat.txt] or aged 12 hours,
    that is 12 * 3600 * 1000000 microseconds, or less: every file other
    than [chat.txt] older than 12 hours is gone, every file aged 12
    hours or less is there unchanged, [chat.txt] is as it was whatever
    its age, no entry appears, and nothing outside the directory
    moves. *)
Theorem cleanup_old_files_spec w d :
  dirs w !! folder = Some d →
  ∃ w' d',
    cleanup_old_files now folder w = (Done (), w') ∧
    dirs w' !! folder = Some d' ∧
    (∀ n f, d' !! n = Some f ↔
            d !! n = Some f ∧
            (n = "chat.txt" ∨ now - mtime f ≤ 12 * 3600 * 1000000)) ∧
    (∀ n f, d !! n = Some f → n ≠ "chat.txt" →
            12 * 3600 * 1000000 < now - mtime f → d' !! n = None) ∧
    (∀ n f, d !! n = Some f → now - mtime f ≤ 12 * 3600 * 1000000 →
            d' !! n = Some f) ∧
    d' !! "chat.txt" = d !! "chat.txt" ∧
    (∀ n, d !! n = None → d' !! n = None) ∧
    (∀ p, p ≠ folder → dirs w' !! p = dirs w !! p) ∧
    rooms_file w' = rooms_file w ∧ otp_file w' = otp_file w.
Proof.
  intros Hd.
  destruct (cleanup_old_files_run w d Hd) as (Hrun & Hr & Ho & Hdirs).
  exists (cleanup_old_files now folder w).2, (filter (kept now) d).
  split; [done|]. rewrite Hdirs.
  split; [by apply lookup_insert_eq|].
  split; [|split; [|split; [|split; [|split; [|split]]]]].
  - intros n f. rewrite map_lookup_filter_Some. unfold kept. simpl.
    by rewrite retention_hours.
  - intros n f Hf Hn Hold. apply map_lookup_filter_None. right.
    intros f' Hf' [?|Hk]; simpl in *; [done|].
    rewrite Hf in Hf'. injection Hf' as <-. rewrite retention_hours in Hk. lia.
  - intros n f Hf Hyoung. apply map_lookup_filter_Some. split; [done|].
    right. simpl. by rewrite retention_hours.
  - apply option_eq. intros f. rewrite map_lookup_filter_Some.
    split; [by intros [? _]|]. intros Hf. split; [done|by left].
  - intros n Hn. apply map_lookup_filter_None. by left.
  - intros p Hp. by rewrite lookup_insert_ne.
  - done.
Qed.

(** C6: a second sweep right after the first, at the same reading of
    the clock, returns normally and changes nothing: no removal is
    made and the room's files are those the first sweep left. *)
Theorem cleanup_old_files_idempotent w d :
  dirs w !! folder = Some d →
  let w1 := (cleanup_old_files now folder w).2 in
  cleanup_old_files now folder w1 = (Done (), w1).
Proof.
  intros Hd w1.
  destruct (cleanup_old_files_run w d Hd) as (_ & _ & _ & Hdirs).
  assert (dirs w1 !! folder = Some (filter (kept now) d)) as Hd1.
  { subst w1. rewrite Hdirs. apply lookup_insert_eq. }
  unfold cleanup_old_files.
  rewrite (bind_run _ _ _ _ _ (listdir_run w1 _ Hd1)).
  apply (cleanup_loop_noop _ w1 _ Hd1).
  intros n [f Hf]%listed_iff. exists f. split; [done|].
  by apply map_lookup_filter_Some in Hf as [_ Hk].
Qed.

End Sweep.

Lemma cleanup_old_files_spec_witness :
  ∃ w' d',
    cleanup_old_files demo_now (room_path "r") demo = (Done (), w') ∧
    dirs w' !! room_path "r" = Some d' ∧
    (∀ n f, d' !! n = Some f ↔
            demo_dir !! n = Some f ∧
            (n = "chat.txt" ∨ demo_now - mtime f ≤ 12 * 3600 * 1000000)) ∧
    (∀ n f, demo_dir !! n = Some f → n ≠ "chat.txt" →
            12 * 3600 * 1000000 < demo_now - mtime f → d' !! n = None) ∧
    (∀ n f, demo_dir !! n = Some f → demo_now - mtime f ≤ 12 * 3600 * 1000000 →
            d' !! n = Some f) ∧
    d' !! "chat.txt" = demo_dir !! "chat.txt" ∧
    (∀ n, demo_dir !! n = None → d' !! n = None) ∧
    (∀ p, p ≠ room_path "r" → dirs w' !! p = dirs demo !! p) ∧
    rooms_file w' = rooms_file demo ∧ otp_file w' = otp_file demo.
Proof. apply (cleanup_old_files_spec demo_now (room_path "r") demo demo_dir). reflexivity. Defined.

Lemma cleanup_old_files_idempotent_witness :
  let w1 := (cleanup_old_files demo_now (room_path "r") demo).2 in
  cleanup_old_files demo_now (room_path "r") w1 = (Done (), w1).
Proof.
  apply (cleanup_old_files_idempotent demo_now (room_path "r") demo demo_dir).
  reflexivity.
Defined.

Example cleanup_demo :
  map_to_list <$> dirs (cleanup_old_files demo_now (room_path "r") demo).2 !! room_path "r"
  = Some [("chat.txt", File 0 "[2024-03-07 09:05] alice: hi");
          ("new.bin", File 40000000000 "y")].
Proof. vm_compute. reflexivity. Qed.

(** ** The transcript *)

Lemma lstrip_all_space s : all_space (lstrip s) = all_space s.
Proof.
  induction s as [|c s IH]; [done|]. simpl.
  destruct (isspace c) eqn:Hc; simpl; [done|by rewrite Hc].
Qed.

Lemma rstrip_empty_iff s : rstrip s = "" ↔ all_space s = true.
Proof.
  induction s as [|c s IH]; [done|]. simpl. unfold falsy.
  destruct (isspace c); simpl; [|done].
  destruct (decide (rstrip s = "")) as [Hr|Hr].
  - rewrite bool_decide_eq_true_2 by done. by rewrite <- IH.
  - rewrite bool_decide_eq_false_2 by done. split; [done|].
    intros Hs. by apply IH in Hs.
Qed.

(** [message.strip()] is the empty string exactly for the messages that
    are empty or whitespace only. *)
Lemma strip_empty_iff s : strip s = "" ↔ all_space s = true.
Proof. unfold strip. by rewrite rstrip_empty_iff, lstrip_all_space. Qed.

Lemma falsy_strip s : falsy (strip s) = all_space s.
Proof.
  unfold falsy. destruct (all_space s) eqn:Hs.
  - apply bool_decide_eq_true_2. by apply strip_empty_iff.
  - apply bool_decide_eq_false_2. rewrite strip_empty_iff. congruence.
Qed.

Lemma is_digit_pretty_N_char x : is_digit (pretty_N_char x) = true.
Proof. unfold pretty_N_char. by repeat case_match. Qed.

Lemma digit_pretty d : 0 ≤ d ≤ 9 → digit d = pretty_N_char (Z.to_N d).
Proof.
  intros Hd.
  assert (d = 0 ∨ d = 1 ∨ d = 2 ∨ d = 3 ∨ d = 4 ∨ d = 5 ∨ d = 6 ∨ d = 7
          ∨ d = 8 ∨ d = 9) as Hcases by lia.
  repeat (destruct Hcases as [->|Hcases]; [reflexivity|]). by subst.
Qed.

Lemma two_digits_form n :
  0 ≤ n ≤ 99 →
  ∃ a b, two_digits n = String a (String b "")
         ∧ is_digit a = true ∧ is_digit b = true.
Proof.
  intros Hn. unfold two_digits. eexists _, _. split; [done|].
  rewrite !digit_pretty.
  - split; apply is_digit_pretty_N_char.
  - pose proof (Z.mod_pos_bound n 10). lia.
  - Z.div_mod_to_equations. lia.
Qed.

Lemma str_year_form y :
  1000 ≤ y ≤ 9999 →
  ∃ a b c d, str y = String a (String b (String c (String d "")))
    ∧ is_digit a = true ∧ is_digit b = true
    ∧ is_digit c = true ∧ is_digit d = true.
Proof.
  intros Hy. destruct y as [|p|p]; [lia| |lia].
  unfold str, pretty, pretty_Z, pretty, pretty_positive, pretty, pretty_N.
  rewrite decide_False by done.
  assert (N.div (N.div (N.div (N.div (N.pos p) 10) 10) 10) 10 = 0)%N as Hz.
  { rewrite !N.Div0.div_div. apply N.div_small. lia. }
  assert (0 < N.div (N.div (N.div (N.pos p) 10) 10) 10)%N as H3.
  { rewrite !N.Div0.div_div. apply N.div_str_pos. lia. }
  assert (0 < N.div (N.div (N.pos p) 10) 10)%N as H2.
  { rewrite !N.Div0.div_div. apply N.div_str_pos. lia. }
  assert (0 < N.div (N.pos p) 10)%N as H1 by (apply N.div_str_pos; lia).
  rewrite (pretty_N_go_step (N.pos p)) by lia.
  rewrite (pretty_N_go_step _ _ H1), (pretty_N_go_step _ _ H2),
    (pretty_N_go_step _ _ H3), Hz, pretty_N_go_0.
  eexists _, _, _, _. split; [done|].
  repeat split; apply is_digit_pretty_N_char.
Qed.

(** [strftime] prints [YYYY-MM-DD HH:MM]. *)
Lemma strftime_shape t : valid_datetime t → timestamp_shape (strftime t) = true.
Proof.
  intros (Hy & Hm & Hd & Hh & Hn). unfold strftime.
  destruct (str_year_form _ Hy) as (y1 & y2 & y3 & y4 & -> & ? & ? & ? & ?).
  destruct (two_digits_form (month t)) as (m1 & m2 & -> & ? & ?); [lia|].
  destruct (two_digits_form (day t)) as (d1 & d2 & -> & ? & ?); [lia|].
  destruct (two_digits_form (hour t)) as (h1 & h2 & -> & ? & ?); [lia|].
  destruct (two_digits_form (minute t)) as (n1 & n2 & -> & ? & ?); [lia|].
  simpl. by repeat (rewrite andb_true_iff; split).
Qed.

Lemma append_file_run stamp dir name data w d :
  dirs w !! dir = Some d →
  append_file stamp dir name data w
  = (Done (), World (rooms_file w) (otp_file w)
       (<[dir := <[name := File stamp (from_option content "" (d !! name) +:+ data)]> d]>
          (dirs w))
       (Wrote (join dir name) :: io_log w)).
Proof. intros Hd. unfold append_file. by rewrite Hd. Qed.

Lemma write_file_run stamp dir name data w d :
  dirs w !! dir = Some d →
  write_file stamp dir name data w
  = (Done (), World (rooms_file w) (otp_file w)
       (<[dir := <[name := File stamp data]> d]> (dirs w))
       (Wrote (join dir name) :: io_log w)).
Proof. intros Hd. unfold write_file. by rewrite Hd. Qed.

Lemma append_cons c (a b : string) : String c a +:+ b = String c (a +:+ b).
Proof. done. Qed.

Lemma string_app_assoc (a b c : string) : (a +:+ b) +:+ c = a +:+ (b +:+ c).
Proof.
  induction a as [|x a IH]; [done|].
  change (String x ((a +:+ b) +:+ c) = String x (a +:+ (b +:+ c))).
  by rewrite IH.
Qed.

Lemma encode_text_app a b : encode_text (a +:+ b) = encode_text a +:+ encode_text b.
Proof.
  induction a as [|c a IH]; [done|].
  rewrite append_cons. cbn [encode_text]. by rewrite IH, string_app_assoc.
Qed.

Lemma line_breaks_app s t : line_breaks (s +:+ t) = (line_breaks s + line_breaks t)%nat.
Proof.
  induction s as [|c s IH]; [done|]. rewrite append_cons. simpl. rewrite IH. lia.
Qed.

Lemma line_breaks_utf8_bytes c : line_breaks (utf8_bytes c) = line_breaks (String c "").
Proof. destruct c as [[] [] [] [] [] [] [] []]; by vm_compute. Qed.

(** Encoding neither adds nor hides a line break. *)
Lemma line_breaks_encode_text s : line_breaks (encode_text s) = line_breaks s.
Proof.
  induction s as [|c s IH]; [done|]. cbn [encode_text].
  rewrite line_breaks_app, line_breaks_utf8_bytes, IH. simpl. lia.
Qed.

Lemma is_digit_no_break c :
  is_digit c = true → bool_decide (c = LF) || bool_decide (c = CR) = false.
Proof. destruct c as [[] [] [] [] [] [] [] []]; by vm_compute. Qed.

Lemma timestamp_shape_line_breaks s : timestamp_shape s = true → line_breaks s = 0%nat.
Proof.
  unfold timestamp_shape. intros Hs.
  do 17 (destruct s as [|? s]; try done).
  rewrite !andb_true_iff in Hs.
  destruct Hs as ((((Hdigits & ?%bool_decide_eq_true) & ?%bool_decide_eq_true)
                   & ?%bool_decide_eq_true) & ?%bool_decide_eq_true); subst.
  simpl in Hdigits. rewrite !andb_true_iff in Hdigits.
  destruct Hdigits as (?&?&?&?&?&?&?&?&?&?&?&?&_).
  simpl. by rewrite !is_digit_no_break.
Qed.




(** ** Uploads *)

(** C9: an upload named [chat.txt] into a room whose directory exists
    succeeds and puts the uploaded bytes in the place of the
    transcript: the file [chat.txt] of the room then holds the upload
    and nothing of the earlier history; it is left out of the
    shared-files listing; no sweep removes it however late it runs; and
    the next message of the chat form is appended to the uploaded
    bytes. *)
Theorem upload_replaces_transcript stamp room data w d :
  dirs w !! room_path room = Some d →
  let w' := (upload stamp room "chat.txt" data w).2 in
  upload stamp room "chat.txt" data w = (Done (), w') ∧
  lookup_file (room_path room) chat_file w' = Some (File stamp data) ∧
  transcript room w' = Some data ∧
  (∃ names, shared_files room w' = (Done names, w') ∧ "chat.txt" ∉ names) ∧
  (∀ now, lookup_file (room_path room) chat_file
            (cleanup_old_files now (room_path room) w').2
          = Some (File stamp data)) ∧
  (∀ stamp' now username text, all_space text = false →
     transcript room (send_message stamp' now room username text w').2
     = Some (data +:+ encode_text (chat_line (strftime now) username text))).
Proof.
  intros Hd w'. subst w'. unfold upload.
  rewrite (write_file_run _ _ _ _ _ _ Hd). simpl.
  set (w' := World _ _ _ _).
  assert (dirs w' !! room_path room = Some (<["chat.txt" := File stamp data]> d))
    as Hd' by apply lookup_insert_eq.
  assert (lookup_file (room_path room) chat_file w' = Some (File stamp data))
    as Hf.
  { unfold lookup_file. rewrite Hd'. simpl. apply lookup_insert_eq. }
  split; [done|]. split; [done|]. split; [|split; [|split]].
  - unfold transcript. by rewrite Hf.
  - unfold shared_files.
    rewrite (bind_run _ _ _ _ _ (listdir_run _ _ _ Hd')).
    eexists. split; [done|]. rewrite list_elem_of_filter. by intros [? _].
  - intros now.
    destruct (cleanup_old_files_run now _ _ _ Hd') as (_ & _ & _ & Hdirs).
    unfold lookup_file. rewrite Hdirs, lookup_insert_eq. simpl.
    apply map_lookup_filter_Some. split; [apply lookup_insert_eq|by left].
  - intros stamp' now username text Htext. unfold send_message.
    rewrite falsy_strip, Htext. simpl.
    rewrite (append_file_run _ _ _ _ _ _ Hd'). unfold transcript, lookup_file.
    simpl. rewrite lookup_insert_eq. simpl. rewrite lookup_insert_eq. simpl.
    unfold chat_file. by rewrite lookup_insert_eq.
Qed.

Lemma upload_replaces_transcript_witness :
  let w' := (upload 9 "r" "chat.txt" "not a chat" demo).2 in
  upload 9 "r" "chat.txt" "not a chat" demo = (Done (), w') ∧
  lookup_file (room_path "r") chat_file w' = Some (File 9 "not a chat") ∧
  transcript "r" w' = Some "not a chat" ∧
  (∃ names, shared_files "r" w' = (Done names, w') ∧ "chat.txt" ∉ names) ∧
  (∀ now, lookup_file (room_path "r") chat_file
            (cleanup_old_files now (room_path "r") w').2
          = Some (File 9 "not a chat")) ∧
  (∀ stamp' now username text, all_space text = false →
     transcript "r" (send_message stamp' now "r" username text w').2
     = Some ("not a chat" +:+ encode_text (chat_line (strftime now) username text))).
Proof.
  apply (upload_replaces_transcript 9 "r" "not a chat" demo demo_dir).
  reflexivity.
Defined.

(** ** What the handlers never undo *)

Section Preserves.
Context {R : world → world → Prop} `{!Reflexive R, !Transitive R}.

Lemma preserves_ret {A} (a : A) : preserves R (mret a : M A).
Proof. intros w. simpl. reflexivity. Qed.

Lemma preserves_stop {A} n : preserves R (stop n : M A).
Proof. intros w. simpl. reflexivity. Qed.

Lemma preserves_bind {A B} (m : M A) (k : A → M B) :
  preserves R m → (∀ a, preserves R (k a)) → preserves R (m ≫= k).
Proof.
  intros Hm Hk w. unfold mbind, M_bind. specialize (Hm w).
  destruct (m w) as [[a|n|e|] w1]; simpl in *; [|done..].
  etrans; [exact Hm|apply Hk].
Qed.
End Preserves.

Global Instance keeps_rooms_refl : Reflexive keeps_rooms.
Proof. by intros w. Qed.

Global Instance keeps_rooms_trans : Transitive keeps_rooms.
Proof.
  intros w1 w2 w3 [Hr1 Hd1] [Hr2 Hd2]. split; [congruence|]. auto.
Qed.

Lemma keeps_rooms_insert w dir (d : gmap string file) log' :
  keeps_rooms w (World (rooms_file w) (otp_file w) (<[dir := d]> (dirs w)) log').
Proof.
  split; [done|]. intros p Hp. simpl.
  destruct (decide (dir = p)) as [->|Hne].
  - rewrite lookup_insert_eq. by eexists.
  - by rewrite lookup_insert_ne.
Qed.

Lemma no_such_dir_state {A} path at_path w :
  (no_such_dir path at_path w : outcome A * world).2 = w.
Proof. unfold no_such_dir. by repeat case_match. Qed.

Lemma keeps_rooms_no_such_dir {A} path at_path :
  preserves keeps_rooms (no_such_dir path at_path : M A).
Proof. intros w. by rewrite no_such_dir_state. Qed.

Lemma keeps_rooms_load_room_passwords : preserves keeps_rooms load_room_passwords.
Proof. intros w. by rewrite load_room_passwords_run. Qed.

Lemma keeps_rooms_load_otps : preserves keeps_rooms load_otps.
Proof. intros w. by rewrite load_otps_run. Qed.

Lemma keeps_rooms_save_otps data : preserves keeps_rooms (save_otps data).
Proof. by intros w. Qed.

Lemma keeps_rooms_makedirs path : preserves keeps_rooms (makedirs path).
Proof.
  intros w. unfold makedirs. repeat case_match; try done.
  apply keeps_rooms_insert.
Qed.

Lemma keeps_rooms_listdir path : preserves keeps_rooms (listdir path).
Proof.
  intros w. unfold listdir.
  destruct (dirs w !! path); [done|apply keeps_rooms_no_such_dir].
Qed.

Lemma keeps_rooms_exists_file dir name : preserves keeps_rooms (exists_file dir name).
Proof. by intros w. Qed.

Lemma keeps_rooms_getmtime dir name : preserves keeps_rooms (getmtime dir name).
Proof. intros w. unfold getmtime. by destruct (lookup_file dir name w). Qed.

Lemma keeps_rooms_remove dir name : preserves keeps_rooms (remove dir name).
Proof.
  intros w. unfold remove.
  destruct (dirs w !! dir) as [d|]; [|apply keeps_rooms_no_such_dir].
  destruct (d !! name); [|done]. apply keeps_rooms_insert.
Qed.

Lemma keeps_rooms_write_file stamp dir name data :
  preserves keeps_rooms (write_file stamp dir name data).
Proof.
  intros w. unfold write_file.
  destruct (dirs w !! dir); [|apply keeps_rooms_no_such_dir].
  apply keeps_rooms_insert.
Qed.

Lemma keeps_rooms_append_file stamp dir name data :
  preserves keeps_rooms (append_file stamp dir name data).
Proof.
  intros w. unfold append_file.
  destruct (dirs w !! dir); [|apply keeps_rooms_no_such_dir].
  apply keeps_rooms_insert.
Qed.

Lemma keeps_rooms_ret {A} (a : A) : preserves keeps_rooms (mret a : M A).
Proof. apply preserves_ret. Qed.

Lemma keeps_rooms_stop {A} n : preserves keeps_rooms (stop n : M A).
Proof. apply preserves_stop. Qed.

Create HintDb keeps discriminated.
#[local] Hint Resolve keeps_rooms_ret keeps_rooms_stop
  keeps_rooms_load_room_passwords keeps_rooms_load_otps keeps_rooms_save_otps
  keeps_rooms_makedirs keeps_rooms_listdir keeps_rooms_exists_file
  keeps_rooms_getmtime keeps_rooms_remove
  keeps_rooms_write_file keeps_rooms_append_file : keeps.

(** Binds are opened one at a time; what is left is a primitive call. *)
Ltac keeps :=
  repeat first
    [ apply preserves_bind; [|intros ?]
    | case_match
    | progress eauto with keeps ].

Lemma keeps_rooms_generate_otp draw now u : preserves keeps_rooms (generate_otp draw now u).
Proof. unfold generate_otp. keeps. Qed.

Lemma keeps_rooms_validate_otp now u c : preserves keeps_rooms (validate_otp now u c).
Proof. unfold validate_otp. keeps. Qed.

Lemma keeps_rooms_request_otp draw now u r p :
  preserves keeps_rooms (request_otp draw now u r p).
Proof. unfold request_otp. pose proof keeps_rooms_generate_otp. keeps. Qed.

Lemma keeps_rooms_cleanup_loop now folder names :
  preserves keeps_rooms (cleanup_loop now folder names).
Proof.
  induction names as [|fname rest IH]; simpl; [keeps|].
  apply preserves_bind; [|by intros ?]. unfold cleanup_step. keeps.
Qed.

Lemma keeps_rooms_cleanup_old_files now folder :
  preserves keeps_rooms (cleanup_old_files now folder).
Proof.
  unfold cleanup_old_files. pose proof keeps_rooms_cleanup_loop. keeps.
Qed.

Lemma keeps_rooms_room_setup stamp room : preserves keeps_rooms (room_setup stamp room).
Proof. unfold room_setup. keeps. Qed.

Lemma keeps_rooms_send_message stamp now room u m :
  preserves keeps_rooms (send_message stamp now room u m).
Proof. unfold send_message. keeps. Qed.

Lemma keeps_rooms_remove_all dir names : preserves keeps_rooms (remove_all dir names).
Proof.
  induction names as [|fname rest IH]; simpl; [keeps|].
  apply preserves_bind; [keeps|by intros ?].
Qed.

Lemma keeps_rooms_clear_files room : preserves keeps_rooms (clear_files room).
Proof.
  unfold clear_files, shared_files. pose proof keeps_rooms_remove_all. keeps.
Qed.

(** ** Room credentials *)

Lemma after_room_path room : after "secure_rooms/" (room_path room) = Some room.
Proof. done. Qed.

(** For a room name with a directory of its own, [makedirs] succeeds. *)
Lemma makedirs_run room w :
  room_ok room = true →
  makedirs (room_path room) w = (Done (), (makedirs (room_path room) w).2).
Proof.
  unfold room_ok, name_ok. rewrite !andb_true_iff, !negb_true_iff, Z.leb_le.
  intros [[[Hentry Hnul] Hlen] Htable].
  unfold makedirs. destruct (dirs w !! room_path room); [done|].
  rewrite after_room_path, Hentry, Hnul. simpl.
  assert ((NAME_MAX <? Z.of_nat (length (encode room))) = false) as ->
    by (apply Z.ltb_ge; lia).
  assert (table_named room w = false) as ->.
  { unfold table_name in Htable. unfold table_named.
    apply orb_false_iff in Htable as [-> ->]. done. }
  by rewrite Htable.
Qed.

(** For such a name no call leaves the model: a missing directory is
    reported as missing. *)
Lemma no_such_dir_room_ok {A} room at_path w :
  room_ok room = true →
  (no_such_dir (room_path room) at_path w : outcome A * world)
  = (Raised (FileNotFoundError at_path), w).
Proof.
  unfold room_ok, name_ok. rewrite !andb_true_iff, !negb_true_iff, Z.leb_le.
  intros [[[Hentry Hnul] Hlen] Htable].
  unfold no_such_dir. rewrite after_room_path, Hentry, Hnul. simpl.
  assert ((NAME_MAX <? Z.of_nat (length (encode room))) = false) as ->
    by (apply Z.ltb_ge; lia).
  assert (table_named room w = false) as ->.
  { unfold table_name in Htable. unfold table_named.
    apply orb_false_iff in Htable as [-> ->]. done. }
  by rewrite Htable.
Qed.

Lemma makedirs_present path w :
  is_Some (dirs w !! path) → makedirs path w = (Done (), w).
Proof. intros [d Hd]. unfold makedirs. by rewrite Hd. Qed.

(** What [makedirs] leaves behind when it succeeds, and that it leaves
    everything as it was when it does not. *)
Lemma makedirs_tables path w :
  rooms_file (makedirs path w).2 = rooms_file w
  ∧ otp_file (makedirs path w).2 = otp_file w
  ∧ ((makedirs path w).1 = Done () → is_Some (dirs (makedirs path w).2 !! path))
  ∧ ((makedirs path w).1 ≠ Done () → (makedirs path w).2 = w)
  ∧ (io_log (makedirs path w).2 = io_log w
     ∨ io_log (makedirs path w).2 = MadeDir path :: io_log w).
Proof.
  unfold makedirs. destruct (dirs w !! path) as [d|] eqn:Hd; simpl.
  - rewrite Hd. eauto 10.
  - repeat case_match; simpl; repeat split; eauto; try done.
    intros _. by rewrite lookup_insert_eq.
Qed.

Lemma makedirs_dirs path w p d :
  dirs w !! p = Some d → dirs (makedirs path w).2 !! p = Some d.
Proof.
  intros Hp. unfold makedirs. destruct (dirs w !! path) eqn:Hd; [done|].
  repeat case_match; try done. simpl.
  rewrite lookup_insert_ne; [done|]. intros ->. congruence.
Qed.

Lemma makedirs_dirs_ne path w p :
  p ≠ path → dirs (makedirs path w).2 !! p = dirs w !! p.
Proof.
  intros Hp. unfold makedirs. destruct (dirs w !! path) eqn:Hd; [done|].
  repeat case_match; try done. simpl. by rewrite lookup_insert_ne.
Qed.

(** [bootstrap_or_verify], branch by branch. *)
Lemma bootstrap_or_verify_run room password w :
  bootstrap_or_verify room password w
  = match makedirs (room_path room) w with
    | (Done _, w1) =>
        match rooms_table w !! room with
        | Some hashed =>
            if bool_decide (hash_pw password = hashed) then (Done Verified, w1)
            else (Stopped IncorrectRoomPassword, w1)
        | None =>
            (Done Created,
             World (Some (<[room := hash_pw password]> (rooms_table w)))
                   (otp_file w1) (dirs w1) (Wrote ROOMS_FILE :: io_log w1))
        end
    | (Stopped n, w1) => (Stopped n, w1)
    | (Raised e, w1) => (Raised e, w1)
    | (Beyond, w1) => (Beyond, w1)
    end.
Proof.
  unfold bootstrap_or_verify.
  rewrite (bind_run _ _ _ _ _ (load_room_passwords_run w)).
  unfold mbind at 1, M_bind.
  destruct (makedirs (room_path room) w) as [[[]|n|e|] w1]; [|done..].
  destruct (rooms_table w !! room) as [hashed|]; [|done].
  unfold check_password. by destruct (bool_decide (hash_pw password = hashed)).
Qed.

Global Instance room_path_inj : Inj (=) (=) room_path.
Proof. intros r1 r2 Heq. unfold room_path in Heq. by simplify_eq/=. Qed.

Global Instance grows_refl : Reflexive grows.
Proof. by intros w. Qed.

Global Instance grows_trans : Transitive grows.
Proof. intros w1 w2 w3 [Hr1 Hd1] [Hr2 Hd2]. split; auto. Qed.

Lemma keeps_rooms_grows w w' : keeps_rooms w w' → grows w w'.
Proof.
  intros [Hr Hd]. split; [|done]. unfold rooms_table. by rewrite Hr.
Qed.

Lemma keeps_rooms_known w w' :
  keeps_rooms w w' → known_rooms_have_dirs w → known_rooms_have_dirs w'.
Proof.
  intros [Hr Hd] Hinv r Hroom. apply Hd, Hinv.
  unfold rooms_table in *. by rewrite <- Hr.
Qed.

Lemma bootstrap_or_verify_grows room password w :
  grows w (bootstrap_or_verify room password w).2
  ∧ (known_rooms_have_dirs w →
     known_rooms_have_dirs (bootstrap_or_verify room password w).2).
Proof.
  rewrite bootstrap_or_verify_run.
  pose proof (keeps_rooms_makedirs (room_path room) w) as Hmk.
  destruct (makedirs_tables (room_path room) w) as (Hr & _ & Hdir & _).
  destruct (makedirs (room_path room) w) as [[[]|n|e|] w1]; simpl in *;
    try (split; [by apply keeps_rooms_grows|by apply keeps_rooms_known]).
  destruct (rooms_table w !! room) as [hashed|] eqn:Hroom.
  - case_bool_decide;
      (split; [by apply keeps_rooms_grows|by apply keeps_rooms_known]).
  - simpl. split; [split|].
    + intros r h Hrh. unfold rooms_table at 1. simpl.
      rewrite lookup_insert_ne; [done|]. intros ->. congruence.
    + apply Hmk.
    + intros Hinv r. unfold rooms_table at 1. simpl.
      destruct (decide (room = r)) as [->|Hne]; [auto|].
      rewrite lookup_insert_ne by done. intros Hr'. by apply Hmk, Hinv.
Qed.

(** [login], branch by branch. *)
Lemma login_run now u r p o w :
  login now u r p o w
  = if falsy u || falsy r || falsy p || falsy o
    then (Stopped AllFieldsRequired, w)
    else if from_option (otp_accepts now o) false (otp_table w !! u)
    then match bootstrap_or_verify r p w with
         | (Done res, w') => (Done (res, Session true u r), w')
         | (Stopped n, w') => (Stopped n, w')
         | (Raised e, w') => (Raised e, w')
         | (Beyond, w') => (Beyond, w')
         end
    else (Stopped InvalidOrExpiredOtp, w).
Proof.
  unfold login.
  destruct (falsy u || falsy r || falsy p || falsy o); [done|].
  unfold mbind at 1, M_bind. rewrite validate_otp_run.
  by destruct (from_option _ _ _).
Qed.

Lemma login_grows now u r p o w :
  grows w (login now u r p o w).2
  ∧ (known_rooms_have_dirs w → known_rooms_have_dirs (login now u r p o w).2).
Proof.
  rewrite login_run.
  destruct (falsy u || falsy r || falsy p || falsy o); [by split|].
  destruct (from_option _ _ _); [|by split].
  pose proof (bootstrap_or_verify_grows r p w) as Hb.
  by destruct (bootstrap_or_verify r p w) as [[?|?|?|] ?].
Qed.

(** Every action keeps what is registered and what exists. *)
Lemma perform_grows a w :
  grows w (perform a w)
  ∧ (known_rooms_have_dirs w → known_rooms_have_dirs (perform a w)).
Proof.
  assert (∀ w', keeps_rooms w w' →
    grows w w' ∧ (known_rooms_have_dirs w → known_rooms_have_dirs w')) as Hk.
  { intros w' H. split; [by apply keeps_rooms_grows|by apply keeps_rooms_known]. }
  destruct a; simpl.
  - apply Hk, keeps_rooms_request_otp.
  - apply login_grows.
  - apply Hk.
    apply (preserves_bind (R := keeps_rooms));
      [apply keeps_rooms_room_setup|intros ?; apply keeps_rooms_cleanup_old_files].
  - apply Hk, keeps_rooms_write_file.
  - apply Hk, keeps_rooms_send_message.
  - apply Hk, keeps_rooms_clear_files.
  - apply Hk, keeps_rooms_write_file.
Qed.

Lemma perform_all_grows acts : ∀ w,
  grows w (perform_all acts w)
  ∧ (known_rooms_have_dirs w → known_rooms_have_dirs (perform_all acts w)).
Proof.
  induction acts as [|a acts IH]; intros w; [done|].
  unfold perform_all in *. simpl.
  destruct (perform_grows a w) as [Hg Hi].
  destruct (IH (perform a w)) as [Hg' Hi'].
  split; [by etrans|auto].
Qed.

(** In every state the application produces from an empty store, the
    rooms of the credential table have their directories. *)
Lemma reachable_known_rooms_have_dirs acts :
  known_rooms_have_dirs (perform_all acts fresh).
Proof. apply perform_all_grows. by intros r [h Hh]. Qed.

(** ** Bootstrap or verify *)

(** A later login to a registered room finds the hash the first login
    stored and the directory it made, whatever was done in between. *)
Lemma registered_stays room h w acts :
  rooms_table w !! room = Some h →
  is_Some (dirs w !! room_path room) →
  rooms_table (perform_all acts w) !! room = Some h
  ∧ makedirs (room_path room) (perform_all acts w)
    = (Done (), perform_all acts w).
Proof.
  intros Hh Hd. destruct (perform_all_grows acts w) as [[Hrooms Hdirs] _].
  split; [by apply Hrooms|]. by apply makedirs_present, Hdirs.
Qed.

Lemma bootstrap_or_verify_created room password w :
  room_ok room = true →
  rooms_table w !! room = None →
  let w1 := (bootstrap_or_verify room password w).2 in
  bootstrap_or_verify room password w = (Done Created, w1)
  ∧ rooms_file w1 = Some (<[room := hash_pw password]> (rooms_table w))
  ∧ rooms_table w1 !! room = Some (hash_pw password)
  ∧ is_Some (dirs w1 !! room_path room)
  ∧ head (io_log w1) = Some (Wrote ROOMS_FILE).
Proof.
  intros Hok Hnew. cbv zeta. rewrite bootstrap_or_verify_run.
  destruct (makedirs_tables (room_path room) w) as (_ & _ & Hdir & _).
  rewrite (makedirs_run room w Hok) in *. rewrite Hnew. simpl.
  split; [done|]. split; [done|]. split; [|split; [|done]].
  - unfold rooms_table. simpl. apply lookup_insert_eq.
  - by apply Hdir.
Qed.

Lemma bootstrap_or_verify_known room password h w :
  rooms_table w !! room = Some h →
  makedirs (room_path room) w = (Done (), w) →
  bootstrap_or_verify room password w
  = if bool_decide (hash_pw password = h) then (Done Verified, w)
    else (Stopped IncorrectRoomPassword, w).
Proof. intros Hh Hd. by rewrite bootstrap_or_verify_run, Hd, Hh. Qed.




(** The scenario of the specification: [secret1] creates [teamroom],
    [secret1] is verified, [wrong] is rejected, the table keeps the
    digest of [secret1]. *)
Example teamroom_scenario :
  let w1 := (request_otp 123456 1000 "alice" "teamroom" "secret1" fresh).2 in
  let w2 := (login 1010 "alice" "teamroom" "secret1" "123456" w1).2 in
  (login 1010 "alice" "teamroom" "secret1" "123456" w1).1
    = Done (Created, Session true "alice" "teamroom") ∧
  login 1020 "alice" "teamroom" "secret1" "123456" w2
    = (Done (Verified, Session true "alice" "teamroom"), w2) ∧
  login 1020 "alice" "teamroom" "wrong" "123456" w2
    = (Stopped IncorrectRoomPassword, w2) ∧
  rooms_table w2 !! "teamroom"
    = Some "5b11618c2e44027877d0cd0921ed166b9f176f50587fc91e7534dd2946db77d6".
Proof. vm_compute. done. Qed.

(** ** Rejected logins *)



(** * Further properties of the handlers *)

(** ** Stored credentials *)

Lemma hex_digit_lower_hex d : 0 ≤ d < 16 → is_lower_hex (Sha256.hex_digit d) = true.
Proof.
  intros Hd.
  assert (d = 0 ∨ d = 1 ∨ d = 2 ∨ d = 3 ∨ d = 4 ∨ d = 5 ∨ d = 6 ∨ d = 7
          ∨ d = 8 ∨ d = 9 ∨ d = 10 ∨ d = 11 ∨ d = 12 ∨ d = 13 ∨ d = 14
          ∨ d = 15) as Hcases by lia.
  repeat (destruct Hcases as [->|Hcases]; [reflexivity|]). by subst.
Qed.

Lemma hex_shape n : ∀ x acc,
  String.length (Sha256.hex n x acc) = (n + String.length acc)%nat
  ∧ string_forall is_lower_hex (Sha256.hex n x acc)
    = string_forall is_lower_hex acc.
Proof.
  induction n as [|n IH]; intros x acc; [done|].
  cbn [Sha256.hex]. destruct (IH (x / 16) (String (Sha256.hex_digit (x mod 16)) acc))
    as [Hlen Hall].
  rewrite Hlen, Hall. cbn [String.length string_forall].
  rewrite hex_digit_lower_hex by (apply Z.mod_pos_bound; lia).
  split; [lia|done].
Qed.

(** X1: whatever the password, [hash_pw] returns 64 characters, each
    one of [0-9a-f]. *)
Theorem hash_pw_shape password : digest_shape (hash_pw password).
Proof.
  unfold digest_shape, hash_pw, Sha256.hexdigest.
  destruct (hex_shape 64 (Sha256.digest_int (encode password)) "") as [-> ->].
  done.
Qed.

Lemma keeps_rooms_registered w w' :
  keeps_rooms w w' → registered_by_login w → registered_by_login w'.
Proof.
  intros [Hr _] Hreg r h. unfold rooms_table. rewrite Hr. apply Hreg.
Qed.

Lemma falsy_false s : falsy s = false ↔ s ≠ "".
Proof. unfold falsy. by rewrite bool_decide_eq_false. Qed.

Lemma not_blank_filled u r p o :
  falsy u || falsy r || falsy p || falsy o = false ↔ filled u r p o.
Proof.
  unfold filled. rewrite !orb_false_iff, !falsy_false. tauto.
Qed.

Lemma login_registered now u r p o w :
  registered_by_login w → registered_by_login (login now u r p o w).2.
Proof.
  intros Hreg. rewrite login_run.
  destruct (falsy u || falsy r || falsy p || falsy o) eqn:Hblank; [done|].
  apply not_blank_filled in Hblank as (_ & Hr & Hp & _).
  destruct (from_option _ _ _); [|done].
  rewrite bootstrap_or_verify_run.
  pose proof (keeps_rooms_registered _ _ (keeps_rooms_makedirs (room_path r) w) Hreg)
    as Hreg'.
  destruct (makedirs (room_path r) w) as [[[]|?|?|] w1]; simpl in *; try done.
  destruct (rooms_table w !! r) as [hashed|] eqn:Hroom.
  - by case_bool_decide.
  - simpl. intros r' h. unfold rooms_table. simpl.
    destruct (decide (r = r')) as [<-|Hne].
    + rewrite lookup_insert_eq. intros [= <-]. eauto.
    + rewrite lookup_insert_ne by done. apply Hreg.
Qed.

Lemma perform_registered a w :
  registered_by_login w → registered_by_login (perform a w).
Proof.
  intros Hreg.
  destruct a; simpl;
    [| by apply login_registered |..];
    (eapply keeps_rooms_registered; [|exact Hreg]).
  - apply keeps_rooms_request_otp.
  - apply (preserves_bind (R := keeps_rooms));
      [apply keeps_rooms_room_setup|intros ?; apply keeps_rooms_cleanup_old_files].
  - apply keeps_rooms_write_file.
  - apply keeps_rooms_send_message.
  - apply keeps_rooms_clear_files.
  - apply keeps_rooms_write_file.
Qed.

Lemma perform_all_registered acts : ∀ w,
  registered_by_login w → registered_by_login (perform_all acts w).
Proof.
  induction acts as [|a acts IH]; intros w Hreg; [done|].
  apply (IH (perform a w)), perform_registered, Hreg.
Qed.

Lemma login_registers now u r p o w r' h :
  rooms_table (login now u r p o w).2 !! r' = Some h →
  rooms_table w !! r' = Some h ∨ r' = r.
Proof.
  rewrite login_run.
  destruct (falsy u || falsy r || falsy p || falsy o); [by left|].
  destruct (from_option _ _ _); [|by left].
  rewrite bootstrap_or_verify_run.
  destruct (makedirs_tables (room_path r) w) as (Hr & _).
  assert (rooms_table (makedirs (room_path r) w).2 = rooms_table w) as Ht
    by (unfold rooms_table; by rewrite Hr).
  destruct (makedirs (room_path r) w) as [[[]|?|?|] w1]; simpl in *;
    try (rewrite Ht; by left).
  destruct (rooms_table w !! r) as [hashed|] eqn:Hroom.
  - case_bool_decide; simpl; rewrite Ht; by left.
  - simpl. unfold rooms_table at 1. simpl.
    destruct (decide (r = r')) as [<-|Hne]; [by right|].
    rewrite lookup_insert_ne by done. by left.
Qed.

Lemma perform_registers a w r h :
  modelled a = true →
  rooms_table (perform a w) !! r = Some h →
  rooms_table w !! r = Some h ∨ room_ok r = true.
Proof.
  intros Hok.
  assert (∀ w', keeps_rooms w w' →
    rooms_table w' !! r = Some h → rooms_table w !! r = Some h ∨ room_ok r = true)
    as Hk.
  { intros w' [Hr _]. unfold rooms_table. rewrite Hr. by left. }
  destruct a; simpl in *.
  - apply Hk, keeps_rooms_request_otp.
  - intros [?| ->]%login_registers; [by left|by right].
  - apply Hk.
    apply (preserves_bind (R := keeps_rooms));
      [apply keeps_rooms_room_setup|intros ?; apply keeps_rooms_cleanup_old_files].
  - apply Hk, keeps_rooms_write_file.
  - apply Hk, keeps_rooms_send_message.
  - apply Hk, keeps_rooms_clear_files.
  - apply Hk, keeps_rooms_write_file.
Qed.

Lemma perform_all_registers acts : ∀ w r h,
  Forall (λ a, modelled a = true) acts →
  rooms_table (perform_all acts w) !! r = Some h →
  rooms_table w !! r = Some h ∨ room_ok r = true.
Proof.
  induction acts as [|a acts IH]; intros w r h Hok; [by left|].
  apply Forall_cons in Hok as [Ha Hok].
  intros [Hh|?]%(IH (perform a w)); [|by right|done].
  by apply (perform_registers a).
Qed.

(** X2: in every state the application produces from an empty store by
    actions on rooms and files with names of their own, each entry of
    the credential table has a room name that is such a name, not
    empty, and holds the digest of a non-empty password, 64 characters
    of [0-9a-f], and the room has its directory. *)
Theorem stored_credentials_are_digests acts room h :
  Forall (λ a, modelled a = true) acts →
  rooms_table (perform_all acts fresh) !! room = Some h →
  room ≠ "" ∧ room_ok room = true ∧ (∃ p, p ≠ "" ∧ h = hash_pw p)
  ∧ digest_shape h
  ∧ is_Some (dirs (perform_all acts fresh) !! room_path room).
Proof.
  intros Hok Hh.
  destruct (perform_all_registered acts fresh) with (r := room) (h := h)
    as (Hroom & p & Hp & ->); [by intros ? ? ?|done|].
  split; [done|]. split.
  { by destruct (perform_all_registers acts fresh room _ Hok Hh). }
  split; [by exists p|]. split; [apply hash_pw_shape|].
  apply reachable_known_rooms_have_dirs. by eexists.
Qed.

Lemma stored_credentials_are_digests_witness :
  "teamroom" ≠ "" ∧ room_ok "teamroom" = true
  ∧ (∃ p, p ≠ ""
       ∧ "5b11618c2e44027877d0cd0921ed166b9f176f50587fc91e7534dd2946db77d6"
         = hash_pw p)
  ∧ digest_shape
      "5b11618c2e44027877d0cd0921ed166b9f176f50587fc91e7534dd2946db77d6"
  ∧ is_Some
      (dirs (perform_all
               [RequestOtp 123456 1000 "alice" "teamroom" "secret1";
                Login 1010 "alice" "teamroom" "secret1" "123456"] fresh)
       !! room_path "teamroom").
Proof.
  apply (stored_credentials_are_digests
           [RequestOtp 123456 1000 "alice" "teamroom" "secret1";
            Login 1010 "alice" "teamroom" "secret1" "123456"]).
  - repeat constructor.
  - vm_compute. reflexivity.
Defined.

(** X3: nothing the application does for rooms and files with names of
    their own changes or deletes the hash stored for a room: after any
    sequence of such actions the room has the hash it had, and a room
    that has a hash then either had it before or was registered under
    such a name. *)
Theorem credentials_never_change acts w room h :
  Forall (λ a, modelled a = true) acts →
  rooms_table w !! room = Some h →
  rooms_table (perform_all acts w) !! room = Some h ∧
  (∀ r' h', rooms_table (perform_all acts w) !! r' = Some h' →
            rooms_table w !! r' = Some h' ∨ room_ok r' = true).
Proof.
  intros Hok Hh. destruct (perform_all_grows acts w) as [[Hrooms _] _].
  split; [by apply Hrooms|]. intros r' h'. by apply perform_all_registers.
Qed.

Lemma credentials_never_change_witness :
  let acts := [RequestOtp 654321 2000 "bob" "r" "other";
               Login 2010 "bob" "r" "other" "654321";
               ClearFiles "r"; ClearChat 2020 "r"] in
  rooms_table (perform_all acts demo) !! "r" = Some (hash_pw "pw") ∧
  (∀ r' h', rooms_table (perform_all acts demo) !! r' = Some h' →
            rooms_table demo !! r' = Some h' ∨ room_ok r' = true).
Proof.
  apply (credentials_never_change
           [RequestOtp 654321 2000 "bob" "r" "other";
            Login 2010 "bob" "r" "other" "654321";
            ClearFiles "r"; ClearChat 2020 "r"] demo "r" (hash_pw "pw")).
  - repeat constructor.
  - reflexivity.
Defined.

(** ** Codes from issue to login *)

(** X4: the code [generate_otp] returns is accepted by [validate_otp]
    for the same user at every reading of the clock up to 300 seconds
    after the issue, and refused at every later one. *)
Theorem issued_code_validates draw now now' u w :
  let w' := (generate_otp draw now u w).2 in
  ∃ code, (generate_otp draw now u w).1 = Done code ∧
    ((now' - now <= 300)%Q → validate_otp now' u code w' = (Done true, w')) ∧
    ((300 < now' - now)%Q → validate_otp now' u code w' = (Done false, w')).
Proof.
  cbv zeta. rewrite generate_otp_run. exists (str draw). split; [done|].
  cbn [snd]. set (w' := World _ _ _ _).
  assert (validate_otp now' u (str draw) w'
          = (Done (if Qlt_le_dec 300 (now' - now) then false else true), w'))
    as Hrun.
  { rewrite validate_otp_run. f_equal. f_equal.
    unfold otp_table at 1. subst w'. simpl.
    rewrite lookup_insert_eq. simpl. unfold otp_accepts. simpl.
    destruct (Qlt_le_dec 300 (now' - now)); [done|].
    by rewrite bool_decide_eq_true_2. }
  rewrite Hrun. destruct (Qlt_le_dec 300 (now' - now)) as [Hlt|Hle].
  - split; [|done]. intros Hle. by destruct (Qle_not_lt _ _ Hle).
  - split; [done|]. intros Hlt. by destruct (Qle_not_lt _ _ Hle).
Qed.

Lemma pretty_N_go_nonempty x : ∀ s, s ≠ "" → pretty_N_go x s ≠ "".
Proof.
  induction (N.lt_wf_0 x) as [x _ IH]. intros s Hs.
  destruct (decide (x = 0)%N) as [->|Hx]; [by rewrite pretty_N_go_0|].
  rewrite pretty_N_go_step by lia. apply IH; [|done].
  apply N.div_lt; lia.
Qed.

(** [str] never returns the empty string. *)
Lemma str_nonempty n : str n ≠ "".
Proof.
  unfold str, pretty, pretty_Z. destruct n as [|p|p]; [done| |done].
  unfold pretty, pretty_positive, pretty, pretty_N.
  rewrite decide_False by done.
  rewrite pretty_N_go_step by lia. by apply pretty_N_go_nonempty.
Qed.

Lemma str_six_digits n :
  100000 ≤ n ≤ 999999 →
  ∃ a b c d e f,
    str n = String a (String b (String c (String d (String e (String f "")))))
    ∧ a = pretty_N_char (Z.to_N (n / 100000))
    ∧ is_digit a = true ∧ is_digit b = true ∧ is_digit c = true
    ∧ is_digit d = true ∧ is_digit e = true ∧ is_digit f = true.
Proof.
  intros Hn. destruct n as [|p|p]; [lia| |lia].
  unfold str, pretty, pretty_Z, pretty, pretty_positive, pretty, pretty_N.
  rewrite decide_False by done.
  set (x := N.pos p). assert (100000 ≤ x ≤ 999999)%N as Hx by (subst x; lia).
  assert (0 < x)%N as H0 by lia.
  assert (0 < N.div x 10)%N as H1 by (apply N.div_str_pos; lia).
  assert (0 < N.div (N.div x 10) 10)%N as H2.
  { rewrite !N.Div0.div_div. apply N.div_str_pos. lia. }
  assert (0 < N.div (N.div (N.div x 10) 10) 10)%N as H3.
  { rewrite !N.Div0.div_div. apply N.div_str_pos. lia. }
  assert (0 < N.div (N.div (N.div (N.div x 10) 10) 10) 10)%N as H4.
  { rewrite !N.Div0.div_div. apply N.div_str_pos. lia. }
  assert (0 < N.div (N.div (N.div (N.div (N.div x 10) 10) 10) 10) 10)%N as H5.
  { rewrite !N.Div0.div_div. apply N.div_str_pos. lia. }
  assert (N.div (N.div (N.div (N.div (N.div (N.div x 10) 10) 10) 10) 10) 10 = 0)%N
    as Hz.
  { rewrite !N.Div0.div_div. apply N.div_small. lia. }
  rewrite (pretty_N_go_step _ _ H0), (pretty_N_go_step _ _ H1),
    (pretty_N_go_step _ _ H2), (pretty_N_go_step _ _ H3),
    (pretty_N_go_step _ _ H4), (pretty_N_go_step _ _ H5), Hz, pretty_N_go_0.
  eexists _, _, _, _, _, _. split; [done|]. split.
  - f_equal. rewrite !N.Div0.div_div. rewrite N.mod_small.
    + subst x. rewrite Z2N.inj_div by lia. done.
    + apply N.Div0.div_lt_upper_bound. lia.
  - repeat split; apply is_digit_pretty_N_char.
Qed.

(** X5: for a draw between 100000 and 999999, the code [generate_otp]
    returns and stores is a string of six decimal digits that does not
    start with [0]. *)
Theorem generate_otp_code_shape draw now u w :
  100000 ≤ draw ≤ 999999 →
  ∃ code,
    (generate_otp draw now u w).1 = Done code ∧
    otp_table (generate_otp draw now u w).2 !! u = Some (OtpEntry code now) ∧
    otp_shape code.
Proof.
  intros Hdraw. rewrite generate_otp_run. exists (str draw).
  split; [done|]. split.
  { unfold otp_table. simpl. apply lookup_insert_eq. }
  destruct (str_six_digits draw Hdraw)
    as (a & b & c & d & e & f & -> & Ha & ? & ? & ? & ? & ? & ?).
  unfold otp_shape. split; [done|]. split.
  - simpl. by repeat (rewrite andb_true_iff; split).
  - exists a, (String b (String c (String d (String e (String f ""))))).
    split; [done|]. subst a.
    assert (1 ≤ draw / 100000 ≤ 9) as Hq by (Z.div_mod_to_equations; lia).
    assert (draw / 100000 = 1 ∨ draw / 100000 = 2 ∨ draw / 100000 = 3
            ∨ draw / 100000 = 4 ∨ draw / 100000 = 5 ∨ draw / 100000 = 6
            ∨ draw / 100000 = 7 ∨ draw / 100000 = 8 ∨ draw / 100000 = 9)
      as Hcases by lia.
    repeat (destruct Hcases as [->|Hcases]; [done|]). by rewrite Hcases.
Qed.

Lemma generate_otp_code_shape_witness :
  ∃ code,
    (generate_otp 123456 1000 "alice" fresh).1 = Done code ∧
    otp_table (generate_otp 123456 1000 "alice" fresh).2 !! "alice"
      = Some (OtpEntry code 1000) ∧
    otp_shape code.
Proof. apply (generate_otp_code_shape 123456 1000 "alice" fresh). lia. Defined.

(** ** The login portal, case by case *)

Lemma otp_accepted_iff now u o w :
  from_option (otp_accepts now o) false (otp_table w !! u) = true
  ↔ otp_valid now u o w.
Proof.
  unfold otp_valid. destruct (otp_table w !! u) as [e|]; simpl.
  - rewrite otp_accepts_true. split; [by exists e|]. by intros (e' & [= <-] & ?).
  - split; [done|]. by intros (e & [=] & _).
Qed.

(** The result of [login] in terms of the tables. *)
Lemma login_outcome now u r p o w :
  login now u r p o w
  = if falsy u || falsy r || falsy p || falsy o
    then (Stopped AllFieldsRequired, w)
    else if from_option (otp_accepts now o) false (otp_table w !! u)
    then
      match makedirs (room_path r) w with
      | (Done _, w1) =>
          match rooms_table w !! r with
          | Some hashed =>
              if bool_decide (hash_pw p = hashed)
              then (Done (Verified, Session true u r), w1)
              else (Stopped IncorrectRoomPassword, w1)
          | None =>
              (Done (Created, Session true u r),
               World (Some (<[r := hash_pw p]> (rooms_table w)))
                     (otp_file w1) (dirs w1) (Wrote ROOMS_FILE :: io_log w1))
          end
      | (Stopped n, w1) => (Stopped n, w1)
      | (Raised e, w1) => (Raised e, w1)
      | (Beyond, w1) => (Beyond, w1)
      end
    else (Stopped InvalidOrExpiredOtp, w).
Proof.
  rewrite login_run.
  destruct (falsy u || falsy r || falsy p || falsy o); [done|].
  destruct (from_option _ _ _); [|done].
  rewrite bootstrap_or_verify_run.
  destruct (makedirs (room_path r) w) as [[[]|?|?|] w1]; [|done..].
  destruct (rooms_table w !! r); [|done]. by case_bool_decide.
Qed.

(** The same for a room name with a directory of its own. *)
Lemma login_outcome_ok now u r p o w :
  room_ok r = true →
  login now u r p o w
  = if falsy u || falsy r || falsy p || falsy o
    then (Stopped AllFieldsRequired, w)
    else if from_option (otp_accepts now o) false (otp_table w !! u)
    then
      let w1 := (makedirs (room_path r) w).2 in
      match rooms_table w !! r with
      | Some hashed =>
          if bool_decide (hash_pw p = hashed)
          then (Done (Verified, Session true u r), w1)
          else (Stopped IncorrectRoomPassword, w1)
      | None =>
          (Done (Created, Session true u r),
           World (Some (<[r := hash_pw p]> (rooms_table w)))
                 (otp_file w1) (dirs w1) (Wrote ROOMS_FILE :: io_log w1))
      end
    else (Stopped InvalidOrExpiredOtp, w).
Proof.
  intros Hok. rewrite login_outcome. by rewrite (makedirs_run r w Hok).
Qed.

(** Case analyses on outcomes: split, bring everything into the context
    and close with what is there. *)
Ltac settle_cases :=
  repeat match goal with
         | |- _ ∧ _ => split
         | |- _ ↔ _ => split
         | |- ∀ _, _ => intro
         | H : _ ∧ _ |- _ => destruct H
         | H : ∃ _, _ |- _ => destruct H
         | H : _ ∨ _ |- _ => destruct H
         end;
  simplify_eq; try done; try tauto; eauto 8.





(** What a successful [login] has checked and what it leaves. *)
Lemma login_done now u r p o w res s :
  (login now u r p o w).1 = Done (res, s) →
  let w' := (login now u r p o w).2 in
  falsy u || falsy r || falsy p || falsy o = false ∧
  from_option (otp_accepts now o) false (otp_table w !! u) = true ∧
  otp_file w' = otp_file w ∧
  rooms_table w' !! r = Some (hash_pw p) ∧
  is_Some (dirs w' !! room_path r) ∧
  (∀ r', r' ≠ r → rooms_table w' !! r' = rooms_table w !! r') ∧
  (∀ path d, dirs w !! path = Some d → dirs w' !! path = Some d) ∧
  (res = Created ↔ rooms_table w !! r = None) ∧
  (res = Verified → rooms_file w' = rooms_file w).
Proof.
  cbv zeta. rewrite login_outcome.
  destruct (falsy u || falsy r || falsy p || falsy o); [done|].
  destruct (from_option _ _ _); [|done].
  destruct (makedirs_tables (room_path r) w) as (Hr & Ho & Hdir & _).
  pose proof (makedirs_dirs (room_path r) w) as Hkeep.
  destruct (makedirs (room_path r) w) as [[[]|?|?|] w1] eqn:Hmk; [|done..].
  simpl in Hr, Ho, Hdir, Hkeep. specialize (Hdir eq_refl).
  destruct (rooms_table w !! r) as [h|] eqn:Hroom.
  - case_bool_decide as Hh; [|done]. simpl. intros [= <- <-].
    assert (rooms_table w1 = rooms_table w) as Ht
      by (unfold rooms_table; by rewrite Hr).
    rewrite Ht. repeat split; try done. by rewrite Hroom, Hh.
  - simpl. intros [= <- <-]. repeat split; try done.
    + unfold rooms_table at 1. simpl. apply lookup_insert_eq.
    + intros r' Hne. unfold rooms_table at 1. simpl.
      by rewrite lookup_insert_ne.
Qed.

(** X8: a successful [login] leaves the OTP table as it was, registers
    nothing but the room it was given and touches no existing
    directory: afterwards the room stores the digest of the password and
    has its directory, every other room has the hash it had, and the
    credential table is written only when the room was unknown. *)
Theorem login_success_frame now u r p o w res s :
  (login now u r p o w).1 = Done (res, s) →
  let w' := (login now u r p o w).2 in
  otp_file w' = otp_file w ∧
  rooms_table w' !! r = Some (hash_pw p) ∧
  is_Some (dirs w' !! room_path r) ∧
  (∀ r', r' ≠ r → rooms_table w' !! r' = rooms_table w !! r') ∧
  (∀ path d, dirs w !! path = Some d → dirs w' !! path = Some d) ∧
  (res = Created ↔ rooms_table w !! r = None) ∧
  (res = Verified → rooms_file w' = rooms_file w).
Proof. intros Hok. by destruct (login_done now u r p o w res s Hok) as (_ & _ & ?). Qed.

Lemma login_success_frame_witness :
  let w' := (login 1010 "alice" "r" "pw" "123456" demo).2 in
  otp_file w' = otp_file demo ∧
  rooms_table w' !! "r" = Some (hash_pw "pw") ∧
  is_Some (dirs w' !! room_path "r") ∧
  (∀ r', r' ≠ "r" → rooms_table w' !! r' = rooms_table demo !! r') ∧
  (∀ path d, dirs demo !! path = Some d → dirs w' !! path = Some d) ∧
  (Verified = Created ↔ rooms_table demo !! "r" = None) ∧
  (Verified = Verified → rooms_file w' = rooms_file demo).
Proof.
  apply (login_success_frame 1010 "alice" "r" "pw" "123456" demo Verified
           (Session true "alice" "r")).
  vm_compute. reflexivity.
Defined.

(** X9: [login] does not use up the code: once a login has succeeded,
    the same form submitted again at any time within 300 seconds of the
    issue of the code is verified, and changes nothing. *)
Theorem login_code_reusable now now' u r p o w res s e :
  (login now u r p o w).1 = Done (res, s) →
  otp_table w !! u = Some e →
  (now' - timestamp e <= 300)%Q →
  let w' := (login now u r p o w).2 in
  login now' u r p o w' = (Done (Verified, Session true u r), w').
Proof.
  intros Hok He Hwin w'.
  destruct (login_done now u r p o w res s Hok)
    as (Hfilled & Hvalid & Hotp & Hroom & Hdir & _).
  fold w' in Hotp, Hroom, Hdir.
  rewrite He in Hvalid. simpl in Hvalid.
  apply otp_accepts_true in Hvalid as [_ Hcode].
  rewrite login_outcome, Hfilled.
  assert (otp_table w' = otp_table w) as Ht by (unfold otp_table; by rewrite Hotp).
  rewrite Ht, He. simpl.
  assert (otp_accepts now' o e = true) as ->.
  { apply otp_accepts_true. split; [by apply Qle_not_lt|done]. }
  rewrite Hroom, (makedirs_present _ _ Hdir).
  by rewrite bool_decide_eq_true_2.
Qed.

Lemma login_code_reusable_witness :
  let w' := (login 1010 "alice" "r" "pw" "123456" demo).2 in
  login 1300 "alice" "r" "pw" "123456" w'
  = (Done (Verified, Session true "alice" "r"), w').
Proof.
  apply (login_code_reusable 1010 1300 "alice" "r" "pw" "123456" demo Verified
           (Session true "alice" "r") (OtpEntry "123456" 1000)).
  - vm_compute. reflexivity.
  - reflexivity.
  - vm_compute. discriminate.
Defined.

(** ** Entering a room *)

Lemma exists_file_run dir name w :
  exists_file dir name w
  = (Done (bool_decide (is_Some (lookup_file dir name w))), w).
Proof. done. Qed.

(** The setup of a room whose name has a directory of its own. *)
Lemma room_setup_run stamp room w :
  room_ok room = true →
  let w' := (room_setup stamp room w).2 in
  room_setup stamp room w = (Done (), w') ∧
  is_Some (dirs w' !! room_path room) ∧
  is_Some (lookup_file (room_path room) chat_file w') ∧
  (is_Some (lookup_file (room_path room) chat_file w) → w' = w) ∧
  (lookup_file (room_path room) chat_file w = None →
   lookup_file (room_path room) chat_file w' = Some (File stamp "")) ∧
  (∀ n, n ≠ chat_file →
        lookup_file (room_path room) n w' = lookup_file (room_path room) n w) ∧
  rooms_file w' = rooms_file w ∧ otp_file w' = otp_file w ∧
  (∀ stamp', room_setup stamp' room w' = (Done (), w')).
Proof.
  intros Hok.
  assert (∀ stamp w, is_Some (lookup_file (room_path room) chat_file w) →
            room_setup stamp room w = (Done (), w)) as Hsame.
  { intros st w0 Hf. unfold room_setup.
    assert (is_Some (dirs w0 !! room_path room)) as Hd.
    { unfold lookup_file in Hf. destruct (dirs w0 !! room_path room); [done|].
      by destruct Hf. }
    rewrite (bind_run _ _ _ _ _ (makedirs_present _ _ Hd)).
    rewrite (bind_run _ _ _ _ _ (exists_file_run _ _ _)).
    by rewrite bool_decide_eq_true_2. }
  destruct (decide (is_Some (lookup_file (room_path room) chat_file w)))
    as [Hf|Hf].
  { cbv zeta. rewrite (Hsame stamp w Hf). simpl. repeat split; try done.
    - unfold lookup_file in Hf. destruct (dirs w !! room_path room); [done|].
      by destruct Hf.
    - intros Hnone. rewrite Hnone in Hf. by destruct Hf.
    - intros stamp'. by apply Hsame. }
  apply eq_None_not_Some in Hf.
  pose proof (makedirs_run room w Hok) as Hmk.
  destruct (makedirs_tables (room_path room) w) as (Hr & Ho & Hd1 & _).
  destruct Hd1 as [d1 Hd1]; [by rewrite Hmk|].
  set (w1 := (makedirs (room_path room) w).2) in *.
  assert (lookup_file (room_path room) chat_file w1 = None) as Hf1.
  { clear Hmk Hd1. subst w1. unfold makedirs, lookup_file in *.
    destruct (dirs w !! room_path room) as [d|] eqn:Hd; simpl in *.
    - by rewrite Hd.
    - repeat case_match; simpl; rewrite ?Hd; try done.
      by rewrite lookup_insert_eq. }
  assert (∀ n, lookup_file (room_path room) n w1 = lookup_file (room_path room) n w)
    as Hfiles.
  { intros n. clear Hmk Hd1 Hf1. subst w1. unfold makedirs, lookup_file.
    destruct (dirs w !! room_path room) as [d|] eqn:Hd; simpl.
    - by rewrite Hd.
    - repeat case_match; simpl; rewrite ?Hd; try done.
      by rewrite lookup_insert_eq. }
  assert (room_setup stamp room w
          = (Done (), World (rooms_file w1) (otp_file w1)
               (<[room_path room := <[chat_file := File stamp ""]> d1]> (dirs w1))
               (Wrote (join (room_path room) chat_file) :: io_log w1))) as Hrun.
  { unfold room_setup.
    rewrite (bind_run _ _ _ _ _ Hmk). fold w1.
    rewrite (bind_run _ _ _ _ _ (exists_file_run _ _ _)), Hf1.
    rewrite bool_decide_eq_false_2 by (by intros [? ?]). simpl.
    by rewrite (write_file_run _ _ _ _ _ _ Hd1). }
  cbv zeta. rewrite Hrun. simpl.
  assert (lookup_file (room_path room) chat_file
            (World (rooms_file w1) (otp_file w1)
               (<[room_path room := <[chat_file := File stamp ""]> d1]> (dirs w1))
               (Wrote (join (room_path room) chat_file) :: io_log w1))
          = Some (File stamp "")) as Hnew.
  { unfold lookup_file. simpl. rewrite lookup_insert_eq. simpl.
    apply lookup_insert_eq. }
  split; [done|]. split; [by rewrite lookup_insert_eq|].
  split; [by rewrite Hnew|]. split; [by rewrite Hf; intros [? ?]|].
  split; [done|]. split; [|split; [done|split; [done|]]].
  - intros n Hn. rewrite <- Hfiles. unfold lookup_file at 1. simpl.
    rewrite lookup_insert_eq. simpl. rewrite lookup_insert_ne by done.
    unfold lookup_file. by rewrite Hd1.
  - intros stamp'. apply Hsame. by rewrite Hnew.
Qed.

(** X10: for a room name that can name a directory of its own under
    [secure_rooms], [room_setup] succeeds and leaves the room with a
    directory and a transcript.  A transcript that is there is not
    touched (the whole state stays as it was); a missing one is
    created empty; no other file of the room changes, nor do the
    tables; and running the setup again changes nothing. *)
Theorem room_setup_spec stamp room w :
  room_ok room = true →
  let w' := (room_setup stamp room w).2 in
  room_setup stamp room w = (Done (), w') ∧
  is_Some (dirs w' !! room_path room) ∧
  is_Some (lookup_file (room_path room) chat_file w') ∧
  (is_Some (lookup_file (room_path room) chat_file w) → w' = w) ∧
  (lookup_file (room_path room) chat_file w = None →
   lookup_file (room_path room) chat_file w' = Some (File stamp "")) ∧
  (∀ n, n ≠ chat_file →
        lookup_file (room_path room) n w' = lookup_file (room_path room) n w) ∧
  rooms_file w' = rooms_file w ∧ otp_file w' = otp_file w ∧
  (∀ stamp', room_setup stamp' room w' = (Done (), w')).
Proof. apply room_setup_run. Qed.

Lemma room_setup_spec_witness :
  let w' := (room_setup 7 "lobby" demo).2 in
  room_setup 7 "lobby" demo = (Done (), w') ∧
  is_Some (dirs w' !! room_path "lobby") ∧
  is_Some (lookup_file (room_path "lobby") chat_file w') ∧
  (is_Some (lookup_file (room_path "lobby") chat_file demo) → w' = demo) ∧
  (lookup_file (room_path "lobby") chat_file demo = None →
   lookup_file (room_path "lobby") chat_file w' = Some (File 7 "")) ∧
  (∀ n, n ≠ chat_file →
        lookup_file (room_path "lobby") n w' = lookup_file (room_path "lobby") n demo) ∧
  rooms_file w' = rooms_file demo ∧ otp_file w' = otp_file demo ∧
  (∀ stamp', room_setup stamp' "lobby" w' = (Done (), w')).
Proof. apply (room_setup_spec 7 "lobby" demo). reflexivity. Defined.

(** X11: in every state the application produces from an empty store by
    actions on rooms and files with names of their own, entering such a
    room, that is the setup followed by the sweep, succeeds whatever
    the clocks; afterwards the room has its directory and its
    transcript, and a transcript that was there before is the same
    file. *)
Theorem enter_room_succeeds acts stamp now room :
  Forall (λ a, modelled a = true) acts →
  room_ok room = true →
  let w := perform_all acts fresh in
  let w' := ((room_setup stamp room;; cleanup_old_files now (room_path room)) w).2 in
  (room_setup stamp room;; cleanup_old_files now (room_path room)) w
    = (Done (), w') ∧
  is_Some (dirs w' !! room_path room) ∧
  is_Some (lookup_file (room_path room) chat_file w') ∧
  (∀ f, lookup_file (room_path room) chat_file w = Some f →
        lookup_file (room_path room) chat_file w' = Some f).
Proof.
  intros _ Hok w.
  destruct (room_setup_run stamp room w Hok)
    as (Hrun & [d Hd] & Hchat & Hsame & _).
  cbv zeta. rewrite (bind_run _ _ _ _ _ Hrun).
  set (w1 := (room_setup stamp room w).2) in *.
  destruct (cleanup_old_files_run now _ w1 d Hd) as (Hsweep & _ & _ & Hdirs).
  rewrite Hsweep. simpl.
  assert (∀ f, lookup_file (room_path room) chat_file w1 = Some f →
            lookup_file (room_path room) chat_file
              (cleanup_old_files now (room_path room) w1).2 = Some f) as Hkeep.
  { intros f. unfold lookup_file. rewrite Hdirs, Hd, lookup_insert_eq. simpl.
    intros Hf. apply map_lookup_filter_Some. split; [done|by left]. }
  split; [done|]. split; [rewrite Hdirs, lookup_insert_eq; by eexists|].
  split.
  - destruct Hchat as [f Hf]. rewrite (Hkeep f Hf). by eexists.
  - intros f Hf. apply Hkeep. rewrite Hsame; [done|]. by rewrite Hf.
Qed.

Lemma enter_room_succeeds_witness :
  let acts := [RequestOtp 123456 1000 "alice" "r" "pw";
               Login 1010 "alice" "r" "pw" "123456";
               EnterRoom 5 5 "r"; Upload 6 "r" "a.txt" "x"] in
  let w := perform_all acts fresh in
  let w' := ((room_setup 7 "r";; cleanup_old_files 50000000000 (room_path "r")) w).2 in
  (room_setup 7 "r";; cleanup_old_files 50000000000 (room_path "r")) w
    = (Done (), w') ∧
  is_Some (dirs w' !! room_path "r") ∧
  is_Some (lookup_file (room_path "r") chat_file w') ∧
  (∀ f, lookup_file (room_path "r") chat_file w = Some f →
        lookup_file (room_path "r") chat_file w' = Some f).
Proof.
  apply (enter_room_succeeds
           [RequestOtp 123456 1000 "alice" "r" "pw";
            Login 1010 "alice" "r" "pw" "123456";
            EnterRoom 5 5 "r"; Upload 6 "r" "a.txt" "x"] 7 50000000000 "r").
  - repeat constructor.
  - reflexivity.
Defined.

(** ** Uploads and the listing *)





(** X15: the shared-files listing of a room returns, without
    repetition, exactly the names of the entries of its directory other
    than [chat.txt], and reads without changing anything. *)
Theorem shared_files_spec room w d :
  dirs w !! room_path room = Some d →
  ∃ names,
    shared_files room w = (Done names, w) ∧
    NoDup names ∧
    (∀ n, n ∈ names ↔ is_Some (d !! n) ∧ n ≠ "chat.txt").
Proof.
  intros Hd. unfold shared_files.
  rewrite (bind_run _ _ _ _ _ (listdir_run _ _ _ Hd)).
  eexists. split; [done|]. split.
  - apply NoDup_filter, NoDup_fst_map_to_list.
  - intros n. rewrite list_elem_of_filter, listed_iff. tauto.
Qed.

Lemma shared_files_spec_witness :
  ∃ names,
    shared_files "r" demo = (Done names, demo) ∧
    NoDup names ∧
    (∀ n, n ∈ names ↔ is_Some (demo_dir !! n) ∧ n ≠ "chat.txt").
Proof. apply (shared_files_spec "r" demo demo_dir). reflexivity. Defined.

(** ** The clear buttons *)

Lemma remove_run dir name w d f :
  dirs w !! dir = Some d → d !! name = Some f →
  remove dir name w
  = (Done (), World (rooms_file w) (otp_file w)
                    (<[dir := delete name d]> (dirs w))
                    (Removed (join dir name) :: io_log w)).
Proof. intros Hd Hf. unfold remove. by rewrite Hd, Hf. Qed.

(** Removing a duplicate-free list of entries of a directory leaves the
    entries not listed. *)
Lemma remove_all_run dir names : ∀ w d,
  dirs w !! dir = Some d →
  NoDup names →
  (∀ n, n ∈ names → is_Some (d !! n)) →
  ∃ w', remove_all dir names w = (Done (), w') ∧
    rooms_file w' = rooms_file w ∧ otp_file w' = otp_file w ∧
    dirs w' = <[dir := filter (λ e, e.1 ∉ names) d]> (dirs w).
Proof.
  induction names as [|fname rest IH]; intros w d Hd Hnd Hin.
  - exists w. simpl. repeat split.
    rewrite map_filter_id; [by rewrite insert_id|].
    intros ? ? _. apply not_elem_of_nil.
  - apply NoDup_cons in Hnd as [Hfresh Hnd].
    destruct (Hin fname) as [f Hf]; [by left|].
    simpl. rewrite (bind_run _ _ _ _ _ (remove_run _ _ _ _ _ Hd Hf)).
    edestruct (IH (World (rooms_file w) (otp_file w)
                         (<[dir := delete fname d]> (dirs w))
                         (Removed (join dir fname) :: io_log w))
                  (delete fname d))
      as (w' & Hrun & Hr & Ho & Hdirs); [by apply lookup_insert_eq|done| |].
    { intros n Hn. rewrite lookup_delete_ne by (intros ->; done).
      apply Hin. by right. }
    exists w'. rewrite Hrun, Hdirs. simpl in *. repeat split; [done..|].
    rewrite insert_insert_eq. f_equal.
    apply map_eq. intros n. apply option_eq. intros x.
    rewrite !map_lookup_filter_Some. simpl.
    destruct (decide (n = fname)) as [->|Hn].
    + rewrite lookup_delete_eq. split; [by intros [? _]|].
      intros [_ Hnot]. destruct Hnot. by left.
    + rewrite lookup_delete_ne by done. rewrite not_elem_of_cons. tauto.
Qed.

Lemma filter_none {A} (P : A → Prop) `{!∀ x, Decision (P x)} (l : list A) :
  (∀ x, x ∈ l → ¬ P x) → filter P l = [].
Proof.
  induction l as [|x l IH]; intros Hall; [done|].
  rewrite filter_cons_False by (apply Hall; by left).
  apply IH. intros y Hy. apply Hall. by right.
Qed.

(** X16: [Clear all files in room], in a room whose directory exists,
    succeeds and removes every file but [chat.txt], which stays the
    file it was; afterwards the listing of shared files is empty.
    Other rooms and the two tables are not touched. *)
Theorem clear_files_spec room w d :
  dirs w !! room_path room = Some d →
  ∃ w',
    clear_files room w = (Done (), w') ∧
    dirs w' = <[room_path room := filter (λ e, e.1 = "chat.txt") d]> (dirs w) ∧
    lookup_file (room_path room) chat_file w'
      = lookup_file (room_path room) chat_file w ∧
    (∀ n, n ≠ "chat.txt" → lookup_file (room_path room) n w' = None) ∧
    shared_files room w' = (Done [], w') ∧
    rooms_file w' = rooms_file w ∧ otp_file w' = otp_file w.
Proof.
  intros Hd. unfold clear_files.
  destruct (shared_files_spec room w d Hd) as (names & Hls & Hnd & Hin).
  rewrite (bind_run _ _ _ _ _ Hls).
  destruct (remove_all_run (room_path room) names w d Hd Hnd)
    as (w' & Hrun & Hr & Ho & Hdirs).
  { intros n Hn. by apply Hin. }
  assert (filter (λ e : string * file, e.1 ∉ names) d
          = filter (λ e, e.1 = "chat.txt") d) as Hfilter.
  { apply map_filter_ext. intros n f Hf. simpl. rewrite Hin.
    split.
    - intros Hnot. destruct (decide (n = "chat.txt")); [done|].
      destruct Hnot. split; [by eexists|done].
    - intros -> [_ ?]. done. }
  rewrite Hfilter in Hdirs.
  exists w'. split; [done|]. split; [done|].
  assert (dirs w' !! room_path room = Some (filter (λ e, e.1 = "chat.txt") d))
    as Hd' by (rewrite Hdirs; apply lookup_insert_eq).
  split; [|split; [|split; [|done]]].
  - unfold lookup_file. rewrite Hd', Hd. simpl.
    apply option_eq. intros f. rewrite map_lookup_filter_Some. simpl.
    unfold chat_file. tauto.
  - intros n Hn. unfold lookup_file. rewrite Hd'. simpl.
    apply map_lookup_filter_None. right. by intros f _ ?.
  - unfold shared_files.
    rewrite (bind_run _ _ _ _ _ (listdir_run _ _ _ Hd')). simpl.
    unfold mret, M_ret. f_equal. f_equal. apply filter_none.
    intros n [f Hf]%listed_iff Hn.
    by apply map_lookup_filter_Some in Hf as [_ ?].
Qed.

Lemma clear_files_spec_witness :
  ∃ w',
    clear_files "r" demo = (Done (), w') ∧
    dirs w'
      = <[room_path "r" := filter (λ e, e.1 = "chat.txt") demo_dir]> (dirs demo) ∧
    lookup_file (room_path "r") chat_file w'
      = lookup_file (room_path "r") chat_file demo ∧
    (∀ n, n ≠ "chat.txt" → lookup_file (room_path "r") n w' = None) ∧
    shared_files "r" w' = (Done [], w') ∧
    rooms_file w' = rooms_file demo ∧ otp_file w' = otp_file demo.
Proof. apply (clear_files_spec "r" demo demo_dir). reflexivity. Defined.

(** ** Messages in order *)

Lemma send_message_run stamp now room u text w d :
  dirs w !! room_path room = Some d →
  all_space text = false →
  send_message stamp now room u text w
  = (Done (),
     World (rooms_file w) (otp_file w)
       (<[room_path room :=
            <[chat_file := File stamp
                (from_option content "" (d !! chat_file)
                 +:+ encode_text (chat_line (strftime now) u text))]> d]>
          (dirs w))
       (Wrote (join (room_path room) chat_file) :: io_log w)).
Proof.
  intros Hd Htext. unfold send_message. rewrite falsy_strip, Htext. simpl.
  by rewrite (append_file_run _ _ _ _ _ _ Hd).
Qed.

Lemma transcript_insert w room (d : gmap string file) f log' :
  transcript room
    (World (rooms_file w) (otp_file w)
           (<[room_path room := <[chat_file := f]> d]> (dirs w)) log')
  = Some (content f).
Proof.
  unfold transcript, lookup_file. simpl. rewrite lookup_insert_eq. simpl.
  by rewrite lookup_insert_eq.
Qed.



(** X18: [Clear chat log], in a room whose directory exists, leaves an
    empty transcript file and every other file as it was; the next
    message that is not blank makes the transcript file exactly the
    bytes of its own line. *)
Theorem clear_chat_then_send stamp stamp' now room u text w d :
  dirs w !! room_path room = Some d →
  all_space text = false →
  let w1 := (clear_chat stamp room w).2 in
  let w2 := (send_message stamp' now room u text w1).2 in
  clear_chat stamp room w = (Done (), w1) ∧
  lookup_file (room_path room) chat_file w1 = Some (File stamp "") ∧
  (∀ n, n ≠ chat_file →
        lookup_file (room_path room) n w1 = lookup_file (room_path room) n w) ∧
  send_message stamp' now room u text w1 = (Done (), w2) ∧
  transcript room w2 = Some (encode_text (chat_line (strftime now) u text)).
Proof.
  intros Hd Htext. cbv zeta. unfold clear_chat.
  rewrite (write_file_run _ _ _ _ _ _ Hd). simpl.
  split; [done|]. split; [|split].
  - unfold lookup_file. simpl. rewrite lookup_insert_eq. simpl.
    apply lookup_insert_eq.
  - intros n Hn. unfold lookup_file. simpl. rewrite lookup_insert_eq, Hd. simpl.
    by rewrite lookup_insert_ne.
  - erewrite send_message_run; [|apply lookup_insert_eq|done]. simpl.
    split; [done|].
    rewrite insert_insert_eq, transcript_insert. simpl.
    by rewrite lookup_insert_eq.
Qed.

Lemma clear_chat_then_send_witness :
  let w1 := (clear_chat 7 "r" demo).2 in
  let w2 := (send_message 8 (DateTime 2024 3 7 9 6) "r" "alice" "hi" w1).2 in
  clear_chat 7 "r" demo = (Done (), w1) ∧
  lookup_file (room_path "r") chat_file w1 = Some (File 7 "") ∧
  (∀ n, n ≠ chat_file →
        lookup_file (room_path "r") n w1 = lookup_file (room_path "r") n demo) ∧
  send_message 8 (DateTime 2024 3 7 9 6) "r" "alice" "hi" w1 = (Done (), w2) ∧
  transcript "r" w2
    = Some (encode_text (chat_line (strftime (DateTime 2024 3 7 9 6)) "alice" "hi")).
Proof.
  apply (clear_chat_then_send 7 8 (DateTime 2024 3 7 9 6) "r" "alice" "hi"
           demo demo_dir); reflexivity.
Defined.

(** ** [str.strip] *)

Lemma append_empty_r (a : string) : a +:+ "" = a.
Proof. induction a as [|c a IH]; [done|]. by rewrite append_cons, IH. Qed.

Lemma all_space_app a b : all_space (a +:+ b) = all_space a && all_space b.
Proof.
  induction a as [|c a IH]; [done|].
  rewrite append_cons. simpl. rewrite IH. by rewrite andb_assoc.
Qed.

Lemma lstrip_split s : ∃ l, s = l +:+ lstrip s ∧ all_space l = true.
Proof.
  induction s as [|c s (l & Hs & Hl)]; [by exists ""|].
  simpl. destruct (isspace c) eqn:Hc.
  - exists (String c l). rewrite append_cons, <- Hs. simpl. by rewrite Hc, Hl.
  - by exists "".
Qed.

Lemma lstrip_head s c t : lstrip s = String c t → isspace c = false.
Proof.
  induction s as [|x s IH]; [done|]. simpl.
  destruct (isspace x) eqn:Hx; [done|]. by intros [= <- _].
Qed.

Lemma lstrip_fixed c t : isspace c = false → lstrip (String c t) = String c t.
Proof. intros Hc. simpl. by rewrite Hc. Qed.

Lemma rstrip_split t : ∃ r, t = rstrip t +:+ r ∧ all_space r = true.
Proof.
  induction t as [|c t (r & Ht & Hr)]; [by exists ""|].
  simpl. destruct (isspace c && falsy (rstrip t)) eqn:Hcond.
  - apply andb_true_iff in Hcond as [Hc Hempty].
    apply bool_decide_eq_true in Hempty. rewrite Hempty in Ht.
    exists (String c r). split; [by rewrite Ht at 1|]. simpl. by rewrite Hc.
  - exists r. by rewrite append_cons, <- Ht.
Qed.

Lemma rstrip_head c t :
  isspace c = false → rstrip (String c t) = String c (rstrip t).
Proof. intros Hc. simpl. by rewrite Hc. Qed.

Lemma rstrip_last t : ∀ p c, rstrip t = p +:+ String c "" → isspace c = false.
Proof.
  induction t as [|x t IH]; intros p c; simpl.
  { by destruct p. }
  destruct (isspace x && falsy (rstrip t)) eqn:Hcond; [by destruct p|].
  destruct p as [|y p].
  - intros [= <- Hr]. rewrite Hr in Hcond. simpl in Hcond.
    by rewrite andb_true_r in Hcond.
  - rewrite append_cons. intros [= _ Hr]. by apply (IH p).
Qed.

Lemma rstrip_idemp t : rstrip (rstrip t) = rstrip t.
Proof.
  induction t as [|x t IH]; [done|]. simpl.
  destruct (isspace x && falsy (rstrip t)) eqn:Hcond; [done|].
  simpl. by rewrite IH, Hcond.
Qed.

(** X19: [strip] takes away whitespace and nothing else, from both ends
    and from nowhere else: the string is some whitespace, then the
    stripped string, then some whitespace; the stripped string neither
    starts nor ends with a whitespace character; and stripping again
    changes nothing. *)
Theorem strip_spec s :
  (∃ l r, s = l +:+ strip s +:+ r ∧ all_space l = true ∧ all_space r = true) ∧
  (∀ c t, strip s = String c t → isspace c = false) ∧
  (∀ p c, strip s = p +:+ String c "" → isspace c = false) ∧
  strip (strip s) = strip s.
Proof.
  unfold strip.
  destruct (lstrip_split s) as (l & Hs & Hl).
  destruct (rstrip_split (lstrip s)) as (r & Ht & Hr).
  assert (∀ c t, rstrip (lstrip s) = String c t → isspace c = false) as Hhead.
  { intros c t. destruct (lstrip s) as [|x u] eqn:Hu; [done|].
    pose proof (lstrip_head s x u Hu) as Hx.
    rewrite (rstrip_head _ _ Hx). by intros [= <- _]. }
  split; [|split; [done|split; [apply rstrip_last|]]].
  - exists l, r. split; [|done]. rewrite Hs at 1. by rewrite Ht at 1.
  - destruct (rstrip (lstrip s)) as [|c t] eqn:Hst; [done|].
    rewrite (lstrip_fixed _ _ (Hhead c t eq_refl)).
    rewrite <- Hst. apply rstrip_idemp.
Qed.

(** ** More on the sweep *)

Lemma filter_ext_in {A} (P Q : A → Prop)
    `{!∀ x, Decision (P x), !∀ x, Decision (Q x)} (l : list A) :
  (∀ x, x ∈ l → P x ↔ Q x) → filter P l = filter Q l.
Proof.
  induction l as [|x l IH]; intros Hext; [done|].
  assert (filter P l = filter Q l) as Hl.
  { apply IH. intros y Hy. apply Hext. by right. }
  destruct (decide (P x)) as [HP|HP].
  - rewrite !filter_cons_True; [by rewrite Hl| |done]. apply Hext; [by left|done].
  - rewrite !filter_cons_False; [done| |done].
    intros HQ. apply HP, Hext; [by left|done].
Qed.

(** What the loop logs: one removal for each stale name, in the order
    of the listing, and nothing else. *)
Lemma cleanup_loop_log now folder names : ∀ w d,
  dirs w !! folder = Some d →
  NoDup names →
  (∀ n, n ∈ names → is_Some (d !! n)) →
  io_log (cleanup_loop now folder names w).2
  = reverse (Removed ∘ join folder <$> filter (λ n, stale now d n = true) names)
    ++ io_log w.
Proof.
  induction names as [|fname rest IH]; intros w d Hd Hnd Hin; [done|].
  apply NoDup_cons in Hnd as [Hfresh Hnd].
  destruct (Hin fname) as [f Hf]; [by left|].
  simpl. pose proof (cleanup_step_run now folder fname w d f Hd Hf) as Hstep.
  destruct (decide (kept now (fname, f))) as [Hk|Hk];
    rewrite (bind_run _ _ _ _ _ Hstep).
  - rewrite (IH w d Hd Hnd) by (intros n Hn; apply Hin; by right).
    rewrite filter_cons_False; [done|].
    unfold stale. rewrite Hf. by rewrite bool_decide_eq_false_2 by auto.
  - rewrite (IH _ (delete fname d)); [|apply lookup_insert_eq|done|].
    + simpl. rewrite filter_cons_True
        by (unfold stale; rewrite Hf; by apply bool_decide_eq_true_2).
      rewrite fmap_cons, reverse_cons, <- app_assoc. simpl.
      do 3 f_equal. apply filter_ext_in. intros n Hn. unfold stale.
      rewrite lookup_delete_ne; [done|]. by intros ->.
    + intros n Hn. rewrite lookup_delete_ne by (intros ->; done).
      apply Hin. by right.
Qed.

(** X20: in a room whose directory exists the sweep does nothing to the
    file system but remove files: what it adds to the log of mutations
    is one removal for each file other than [chat.txt] that is older
    than 12 hours, that is 12 * 3600 * 1000000 microseconds, each
    exactly once, and no write and no new directory. *)
Theorem cleanup_old_files_removals now folder w d :
  dirs w !! folder = Some d →
  ∃ evicted,
    io_log (cleanup_old_files now folder w).2
      = (Removed ∘ join folder <$> evicted) ++ io_log w ∧
    NoDup evicted ∧
    (∀ n, n ∈ evicted ↔
          ∃ f, d !! n = Some f ∧ n ≠ "chat.txt"
               ∧ 12 * 3600 * 1000000 < now - mtime f).
Proof.
  intros Hd. unfold cleanup_old_files.
  rewrite (bind_run _ _ _ _ _ (listdir_run _ _ _ Hd)).
  rewrite (cleanup_loop_log now folder _ w d Hd).
  - rewrite <- fmap_reverse. eexists. split; [done|]. split.
    + rewrite reverse_Permutation. apply NoDup_filter, NoDup_fst_map_to_list.
    + intros n. rewrite elem_of_reverse, list_elem_of_filter, listed_iff.
      unfold stale. split.
      * intros [Hst [f Hf]]. rewrite Hf in Hst.
        apply bool_decide_eq_true in Hst. exists f. split; [done|].
        unfold kept in Hst. simpl in Hst. rewrite retention_hours in Hst.
        split; [by intros ->; apply Hst; left|].
        destruct (decide (12 * 3600 * 1000000 < now - mtime f)); [done|].
        destruct Hst. right. lia.
      * intros (f & Hf & Hn & Hold). rewrite Hf. split; [|by eexists].
        apply bool_decide_eq_true. unfold kept. rewrite retention_hours.
        intros [?|?]; simpl in *; [done|lia].
  - apply NoDup_fst_map_to_list.
  - intros n. by rewrite listed_iff.
Qed.

Lemma cleanup_old_files_removals_witness :
  ∃ evicted,
    io_log (cleanup_old_files demo_now (room_path "r") demo).2
      = (Removed ∘ join (room_path "r") <$> evicted) ++ io_log demo ∧
    NoDup evicted ∧
    (∀ n, n ∈ evicted ↔
          ∃ f, demo_dir !! n = Some f ∧ n ≠ "chat.txt"
               ∧ 12 * 3600 * 1000000 < demo_now - mtime f).
Proof.
  apply (cleanup_old_files_removals demo_now (room_path "r") demo demo_dir).
  reflexivity.
Defined.

(** X21: a sweep makes an earlier sweep redundant: sweeping at one time
    and again at a later time leaves every directory as the later sweep
    alone would have. *)
Theorem cleanup_old_files_later now1 now2 folder w d :
  dirs w !! folder = Some d →
  now1 ≤ now2 →
  dirs (cleanup_old_files now2 folder (cleanup_old_files now1 folder w).2).2
  = dirs (cleanup_old_files now2 folder w).2.
Proof.
  intros Hd Hle.
  destruct (cleanup_old_files_run now1 folder w d Hd) as (_ & _ & _ & Hd1).
  destruct (cleanup_old_files_run now2 folder w d Hd) as (_ & _ & _ & ->).
  destruct (cleanup_old_files_run now2 folder (cleanup_old_files now1 folder w).2
              (filter (kept now1) d)) as (_ & _ & _ & ->).
  { rewrite Hd1. apply lookup_insert_eq. }
  rewrite Hd1, insert_insert_eq. f_equal.
  rewrite map_filter_filter. apply map_filter_ext.
  intros n f _. unfold kept. simpl. split; [tauto|].
  intros Hk. split; [done|]. destruct Hk as [?|?]; [by left|right; lia].
Qed.

Lemma cleanup_old_files_later_witness :
  dirs (cleanup_old_files demo_now (room_path "r")
          (cleanup_old_files 45000000000 (room_path "r") demo).2).2
  = dirs (cleanup_old_files demo_now (room_path "r") demo).2.
Proof.
  apply (cleanup_old_files_later 45000000000 demo_now (room_path "r") demo demo_dir).
  - reflexivity.
  - unfold demo_now. lia.
Defined.

(** ** The session *)

Lemma init_key_lookup state key k :
  init_key state key !! k
  = match state !! k with
    | Some v => Some v
    | None => if decide (key = k) then Some (Text "") else None
    end.
Proof.
  unfold init_key. destruct (state !! key) as [v|] eqn:Hkey.
  - destruct (state !! k) eqn:Hk; [done|].
    rewrite decide_False; [done|]. intros ->. congruence.
  - destruct (decide (key = k)) as [->|Hne].
    + by rewrite lookup_insert_eq, Hkey.
    + rewrite lookup_insert_ne by done. by destruct (state !! k).
Qed.

Lemma foldl_init_key_lookup keys : ∀ state k,
  foldl init_key state keys !! k
  = match state !! k with
    | Some v => Some v
    | None => if decide (k ∈ keys) then Some (Text "") else None
    end.
Proof.
  induction keys as [|key rest IH]; intros state k; cbn [foldl].
  - destruct (state !! k); [done|]. rewrite decide_False; [done|].
    apply not_elem_of_nil.
  - rewrite IH, init_key_lookup. destruct (state !! k); [done|].
    destruct (decide (key = k)) as [->|Hne].
    + rewrite decide_True; [done|by left].
    + destruct (decide (k ∈ rest)) as [Hin|Hin].
      * rewrite decide_True; [done|by right].
      * rewrite decide_False; [done|].
        intros [?|?]%elem_of_cons; [by subst|done].
Qed.

Lemma init_session_lookup state k :
  init_session state !! k
  = match state !! k with
    | Some v => Some v
    | None => if decide (k ∈ SESSION_KEYS) then Some (Text "") else None
    end.
Proof. apply foldl_init_key_lookup. Qed.

(** X22: the session initialisation gives each of the four session
    keys a value, the empty string where it had none, and overwrites
    nothing: every key present before keeps its value, no other key
    appears, and initialising twice is initialising once. *)
Theorem init_session_spec state :
  (∀ k, k ∈ SESSION_KEYS → is_Some (init_session state !! k)) ∧
  (∀ k v, state !! k = Some v → init_session state !! k = Some v) ∧
  (∀ k, k ∈ SESSION_KEYS → state !! k = None →
        init_session state !! k = Some (Text "")) ∧
  (∀ k, k ∉ SESSION_KEYS → init_session state !! k = state !! k) ∧
  init_session (init_session state) = init_session state.
Proof.
  split; [|split; [|split; [|split]]].
  - intros k Hk. rewrite init_session_lookup.
    destruct (state !! k); [by eexists|]. rewrite decide_True by done. by eexists.
  - intros k v Hv. by rewrite init_session_lookup, Hv.
  - intros k Hk Hnone. rewrite init_session_lookup, Hnone. by rewrite decide_True.
  - intros k Hk. rewrite init_session_lookup.
    destruct (state !! k); [done|]. by rewrite decide_False.
  - apply map_eq. intros k. rewrite !init_session_lookup.
    destruct (state !! k); [done|]. by case_decide.
Qed.

(** X23: what the page shows follows the session: before
    initialisation the test of [authenticated] has nothing to read;
    after a logout and the next initialisation the login portal is
    shown and user name and room are empty again; after the
    assignments of a successful login the portal is not shown, and the
    room setup reads back the user name and the room of that login. *)
Theorem session_cycle state u r :
  portal_shown (logout state) = None ∧
  portal_shown (init_session (logout state)) = Some true ∧
  init_session (logout (sign_in u r state)) !! "username" = Some (Text "") ∧
  init_session (logout (sign_in u r state)) !! "room" = Some (Text "") ∧
  portal_shown (init_session (sign_in u r state)) = Some false ∧
  init_session (sign_in u r state) !! "username" = Some (Text u) ∧
  init_session (sign_in u r state) !! "room" = Some (Text r).
Proof.
  unfold portal_shown, logout, sign_in. rewrite !init_session_lookup.
  rewrite !lookup_empty. simpl.
  rewrite lookup_insert_eq.
  rewrite (lookup_insert_ne _ "room" "username") by done.
  rewrite lookup_insert_eq.
  rewrite (lookup_insert_ne _ "room" "authenticated") by done.
  rewrite (lookup_insert_ne _ "username" "authenticated") by done.
  rewrite lookup_insert_eq. done.
Qed.

(** ** Icons *)

Lemma lower_app a b : lower (a +:+ b) = lower a +:+ lower b.
Proof.
  induction a as [|c a IH]; [done|]. rewrite append_cons. simpl.
  by rewrite IH.
Qed.

Lemma lower_char_idemp c : lower_char (lower_char c) = lower_char c.
Proof. destruct c as [[] [] [] [] [] [] [] []]; by vm_compute. Qed.

Lemma lower_idemp s : lower (lower s) = lower s.
Proof.
  induction s as [|c s IH]; [done|]. simpl. by rewrite lower_char_idemp, IH.
Qed.

Lemma endswith_iff s suffix :
  endswith s suffix = true ↔ ∃ front, s = front +:+ suffix.
Proof.
  induction s as [|c s IH]; simpl.
  - rewrite orb_false_r, bool_decide_eq_true. split.
    + intros <-. by exists "".
    + intros ([|? ?] & H); [done|]. by rewrite append_cons in H.
  - rewrite orb_true_iff, bool_decide_eq_true, IH. split.
    + intros [<-|(front & ->)]; [by exists ""|]. by exists (String c front).
    + intros ([|x front] & H); [by left|].
      rewrite append_cons in H. injection H as <- ->. right. by exists front.
Qed.

Lemma endswith_app a b : endswith (a +:+ b) b = true.
Proof. apply endswith_iff. by exists a. Qed.

Lemma endswith_length s a : endswith s a = true → (String.length a ≤ String.length s)%nat.
Proof.
  induction s as [|c s IH]; simpl.
  - rewrite orb_false_r, bool_decide_eq_true. by intros <-.
  - rewrite orb_true_iff, bool_decide_eq_true.
    intros [<-|H]; [done|]. apply IH in H. lia.
Qed.

(** Of two suffixes of one string, the shorter is a suffix of the longer. *)
Lemma endswith_nested s : ∀ a b,
  endswith s a = true → endswith s b = true →
  (String.length a ≤ String.length b)%nat → endswith b a = true.
Proof.
  induction s as [|c s IH]; intros a b; simpl.
  - rewrite !orb_false_r, !bool_decide_eq_true. intros <- <- _. done.
  - rewrite !orb_true_iff, !bool_decide_eq_true.
    intros [Ha|Ha] [Hb|Hb] Hlen.
    + subst. simpl. by rewrite bool_decide_eq_true_2.
    + subst a. apply endswith_length in Hb. simpl in Hlen. lia.
    + subst b. simpl. by rewrite Ha, orb_true_r.
    + by apply IH.
Qed.

Lemma endswith_exclusive s a b :
  endswith a b = false → endswith b a = false →
  endswith s a = true → endswith s b = false.
Proof.
  intros Hab Hba Ha. destruct (endswith s b) eqn:Hb; [|done].
  destruct (le_ge_dec (String.length a) (String.length b)) as [Hle|Hge].
  - by rewrite (endswith_nested s a b Ha Hb Hle) in Hba.
  - by rewrite (endswith_nested s b a Hb Ha Hge) in Hab.
Qed.

(** X24: the icon of a shared file goes by the end of its name, in any
    letter case: a picture for [.png], [.jpg], [.jpeg], a book for
    [.pdf], an archive for [.zip], [.rar], a scroll for [.txt], [.md],
    [.log], [.py], and a plain page when the name ends in none of
    these; lower-casing the name does not change the icon. *)
Theorem file_icon_by_extension stem ext :
  (lower ext ∈ PICTURES → file_icon (stem +:+ ext) = Picture) ∧
  (lower ext = ".pdf" → file_icon (stem +:+ ext) = Book) ∧
  (lower ext ∈ ARCHIVES → file_icon (stem +:+ ext) = Archive) ∧
  (lower ext ∈ TEXTS → file_icon (stem +:+ ext) = Scroll) ∧
  (endswith_any (lower ext) (PICTURES ++ [".pdf"] ++ ARCHIVES ++ TEXTS) = false →
   file_icon ext = Page) ∧
  file_icon (lower ext) = file_icon ext.
Proof.
  assert (∀ e, lower ext = e →
    endswith (lower (stem +:+ ext)) e = true ∧
    ∀ e', endswith e e' = false → endswith e' e = false →
          endswith (lower (stem +:+ ext)) e' = false) as Hends.
  { intros e He. rewrite lower_app, He. split; [apply endswith_app|].
    intros e' H1 H2. by apply (endswith_exclusive _ e e'), endswith_app. }
  unfold file_icon, endswith_any, PICTURES, ARCHIVES, TEXTS.
  split; [|split; [|split; [|split; [|split]]]].
  - intros Hin. cbn [existsb].
    repeat (apply elem_of_cons in Hin as [Hin|Hin];
            [destruct (Hends _ Hin) as [-> _]; by rewrite ?orb_true_r|]).
    by apply elem_of_nil in Hin.
  - intros Hin. cbn [existsb]. destruct (Hends _ Hin) as [-> Hnot].
    by rewrite !Hnot by done.
  - intros Hin. cbn [existsb].
    repeat (apply elem_of_cons in Hin as [Hin|Hin];
            [destruct (Hends _ Hin) as [-> Hnot];
             rewrite !Hnot by done; by rewrite ?orb_true_r|]).
    by apply elem_of_nil in Hin.
  - intros Hin. cbn [existsb].
    repeat (apply elem_of_cons in Hin as [Hin|Hin];
            [destruct (Hends _ Hin) as [-> Hnot];
             rewrite !Hnot by done; by rewrite ?orb_true_r|]).
    by apply elem_of_nil in Hin.
  - cbn [existsb app]. rewrite !orb_false_iff.
    by intros (-> & -> & -> & -> & -> & -> & -> & -> & -> & -> & _).
  - by rewrite lower_idemp.
Qed.

(** ** Rooms do not reach into each other *)

Section Local.
Variable p : string.

Global Instance local_to_refl : Reflexive (local_to p).
Proof. by intros w. Qed.

Global Instance local_to_trans : Transitive (local_to p).
Proof.
  intros w1 w2 w3 (Hr1 & Ho1 & Hd1) (Hr2 & Ho2 & Hd2).
  split; [congruence|]. split; [congruence|].
  intros path Hpath. by rewrite Hd2, Hd1.
Qed.

Lemma local_to_insert w (d : gmap string file) log' :
  local_to p w (World (rooms_file w) (otp_file w) (<[p := d]> (dirs w)) log').
Proof.
  split; [done|]. split; [done|]. intros path Hpath. simpl.
  by rewrite lookup_insert_ne.
Qed.

Lemma local_to_ret {A} (a : A) : preserves (local_to p) (mret a : M A).
Proof. apply preserves_ret. Qed.

Lemma local_to_no_such_dir {A} path at_path :
  preserves (local_to p) (no_such_dir path at_path : M A).
Proof. intros w. by rewrite no_such_dir_state. Qed.

Lemma local_to_makedirs : preserves (local_to p) (makedirs p).
Proof.
  intros w. unfold makedirs. repeat case_match; try done.
  apply local_to_insert.
Qed.

Lemma local_to_listdir : preserves (local_to p) (listdir p).
Proof.
  intros w. unfold listdir.
  destruct (dirs w !! p); [done|apply local_to_no_such_dir].
Qed.

Lemma local_to_exists_file name : preserves (local_to p) (exists_file p name).
Proof. by intros w. Qed.

Lemma local_to_getmtime name : preserves (local_to p) (getmtime p name).
Proof. intros w. unfold getmtime. by destruct (lookup_file p name w). Qed.

Lemma local_to_remove name : preserves (local_to p) (remove p name).
Proof.
  intros w. unfold remove.
  destruct (dirs w !! p) as [d|]; [|apply local_to_no_such_dir].
  destruct (d !! name); [|done]. apply local_to_insert.
Qed.

Lemma local_to_write_file stamp name data :
  preserves (local_to p) (write_file stamp p name data).
Proof.
  intros w. unfold write_file.
  destruct (dirs w !! p); [|apply local_to_no_such_dir].
  apply local_to_insert.
Qed.

Lemma local_to_append_file stamp name data :
  preserves (local_to p) (append_file stamp p name data).
Proof.
  intros w. unfold append_file.
  destruct (dirs w !! p); [|apply local_to_no_such_dir].
  apply local_to_insert.
Qed.

Lemma local_to_cleanup_loop now names :
  preserves (local_to p) (cleanup_loop now p names).
Proof.
  induction names as [|fname rest IH]; simpl; [apply local_to_ret|].
  apply preserves_bind; [|by intros ?]. unfold cleanup_step.
  case_bool_decide; [apply local_to_ret|].
  apply preserves_bind; [apply local_to_getmtime|intros modified].
  case_match; [apply local_to_remove|apply local_to_ret].
Qed.

Lemma local_to_remove_all names : preserves (local_to p) (remove_all p names).
Proof.
  induction names as [|fname rest IH]; simpl; [apply local_to_ret|].
  apply preserves_bind; [apply local_to_remove|by intros ?].
Qed.

End Local.

Lemma in_room_local a w :
  in_room a = true → local_to (room_path (action_room a)) w (perform a w).
Proof.
  destruct a; simpl; [done|done|..]; intros _.
  - apply (preserves_bind (R := local_to (room_path room))).
    + unfold room_setup.
      apply preserves_bind; [apply local_to_makedirs|intros ?].
      apply preserves_bind; [apply local_to_exists_file|intros present].
      destruct present; simpl; [apply local_to_ret|apply local_to_write_file].
    + intros ?. unfold cleanup_old_files.
      apply preserves_bind; [apply local_to_listdir|intros names].
      apply local_to_cleanup_loop.
  - apply local_to_write_file.
  - unfold send_message. case_match; [apply local_to_append_file|].
    apply (local_to_ret (room_path room) ()).
  - unfold clear_files, shared_files.
    apply (preserves_bind (R := local_to (room_path room))).
    + apply preserves_bind; [apply local_to_listdir|intros ?; apply local_to_ret].
    + intros names. apply local_to_remove_all.
  - apply local_to_write_file.
Qed.

(** Every directory but the one of the room an action names is as it
    was. *)
Lemma perform_other_paths a w path :
  path ≠ room_path (action_room a) →
  dirs (perform a w) !! path = dirs w !! path.
Proof.
  destruct (in_room a) eqn:Hin.
  { destruct (in_room_local a w Hin) as (_ & _ & Hd). apply Hd. }
  destruct a; try done; simpl; intros Hpath.
  - unfold request_otp. case_match; [done|].
    unfold mbind, M_bind. by rewrite generate_otp_run.
  - rewrite login_outcome.
    destruct (falsy username || falsy room || falsy password || falsy otp_input);
      [done|].
    destruct (from_option _ _ _); [|done].
    pose proof (makedirs_dirs_ne (room_path room) w path Hpath) as Hmk.
    destruct (makedirs (room_path room) w) as [[[]|?|?|] w1]; try done.
    destruct (rooms_table w !! room); [by case_bool_decide|done].
Qed.

(** X25: no action reaches into another room: whatever is done for one
    room, the directory and the files of every room of another name are
    as they were, for names that can name a directory of their own
    under [secure_rooms]; and the actions made from inside a room
    (entering, uploading, sending, clearing) change neither the
    credential table nor the OTP table. *)
Theorem rooms_are_isolated a w other :
  modelled a = true → room_ok other = true → other ≠ action_room a →
  dirs (perform a w) !! room_path other = dirs w !! room_path other ∧
  (∀ name, lookup_file (room_path other) name (perform a w)
           = lookup_file (room_path other) name w) ∧
  transcript other (perform a w) = transcript other w ∧
  (in_room a = true →
   rooms_file (perform a w) = rooms_file w ∧ otp_file (perform a w) = otp_file w).
Proof.
  intros _ _ Hother.
  assert (dirs (perform a w) !! room_path other = dirs w !! room_path other)
    as Hd.
  { apply perform_other_paths. intros Heq. by apply room_path_inj in Heq. }
  split; [done|]. split; [|split].
  - intros name. unfold lookup_file. by rewrite Hd.
  - unfold transcript, lookup_file. by rewrite Hd.
  - intros Hin. destruct (in_room_local a w Hin) as (Hr & Ho & _). by split.
Qed.

Lemma rooms_are_isolated_witness :
  let a := Upload 9 "lobby" "x.txt" "data" in
  dirs (perform a demo) !! room_path "r" = dirs demo !! room_path "r" ∧
  (∀ name, lookup_file (room_path "r") name (perform a demo)
           = lookup_file (room_path "r") name demo) ∧
  transcript "r" (perform a demo) = transcript "r" demo ∧
  (in_room a = true →
   rooms_file (perform a demo) = rooms_file demo
   ∧ otp_file (perform a demo) = otp_file demo).
Proof.
  apply (rooms_are_isolated (Upload 9 "lobby" "x.txt" "data") demo "r");
    [reflexivity|reflexivity|discriminate].
Defined.

(** ** A code is bound to its user only *)


